(** * sample_supabase_agent.py: a shallow embedding and its properties

    The service is one FastAPI endpoint.  A request is authenticated by a
    static bearer token, the recent history of its session is read from the
    [messages] table of a hosted store, the user's turn is written, a chat
    completion is requested from an external API, and the assistant's turn
    (or an apology) is written.

    Python values are embedded as JSON trees, Python exceptions as a data
    type, and the handler as a function from a world (the table, the log of
    external calls, the behaviour of the collaborators) to a result and a new
    world.  A write that happened before an exception stays in the world, as
    it stays in the store.  The [print] calls of the handler write to the
    process's standard output only and are left out. *)

From Stdlib Require Import String Ascii List ZArith Lia Bool Arith.
From Stdlib Require Import DecimalString.
Import ListNotations.
Local Open Scope list_scope.
Local Open Scope string_scope.
Set Warnings "-register-all".

(** ** Python values *)

(** The values the code handles are what [response.json()] and the store
    client return, and the dicts the code builds itself.  A dict is kept as
    the list of its items; [None] is [JNull]. *)
Inductive json : Type :=
| JNull
| JBool (b : bool)
| JInt (z : Z)
| JFloat (literal : string)
| JStr (s : string)
| JArr (items : list json)
| JObj (fields : list (string * json)).

Definition type_name (v : json) : string :=
  match v with
  | JNull => "NoneType"
  | JBool _ => "bool"
  | JInt _ => "int"
  | JFloat _ => "float"
  | JStr _ => "str"
  | JArr _ => "list"
  | JObj _ => "dict"
  end.

Fixpoint lookup (k : string) (fields : list (string * json)) : option json :=
  match fields with
  | [] => None
  | (k', v) :: rest => if String.eqb k k' then Some v else lookup k rest
  end.

(** ** Exceptions *)

Inductive exn : Type :=
| HTTPException (status_code : Z) (detail : string)
| RequestException (message : string)
| StoreException (message : string)
| KeyError (key_repr : string)
| IndexError (message : string)
| TypeError (message : string)
| AttributeError (message : string).

Definition str_of_int (z : Z) : string :=
  NilZero.string_of_int (Z.to_int z).

(** [str(e)].  An [HTTPException] prints as Starlette prints it, status code,
    colon, detail; a [KeyError] prints the repr of its key; the others print
    their message. *)
Definition str (e : exn) : string :=
  match e with
  | HTTPException status_code detail => str_of_int status_code ++ ": " ++ detail
  | RequestException m => m
  | StoreException m => m
  | KeyError r => r
  | IndexError m => m
  | TypeError m => m
  | AttributeError m => m
  end.

Inductive res (A : Type) : Type :=
| Ret (a : A)
| Raise (e : exn).
Arguments Ret {A} a.
Arguments Raise {A} e.

Definition is_Ret {A} (r : res A) : bool :=
  match r with Ret _ => true | Raise _ => false end.

(** ** Operations of Python on these values *)

Definition quote (s : string) : string := "'" ++ s ++ "'".

(** [v.get(k, default)] *)
Definition py_get (v : json) (k : string) (default : json) : res json :=
  match v with
  | JObj fields =>
      match lookup k fields with
      | Some x => Ret x
      | None => Ret default
      end
  | _ => Raise (AttributeError
                  (quote (type_name v) ++ " object has no attribute 'get'"))
  end.

(** [v[0]] *)
Definition py_index0 (v : json) : res json :=
  match v with
  | JArr [] => Raise (IndexError "list index out of range")
  | JArr (x :: _) => Ret x
  | JStr EmptyString => Raise (IndexError "string index out of range")
  | JStr (String c _) => Ret (JStr (String c EmptyString))
  | JObj _ => Raise (KeyError "0")
  | _ => Raise (TypeError (quote (type_name v) ++ " object is not subscriptable"))
  end.

(** [v[k]] for a string [k] *)
Definition py_getitem (v : json) (k : string) : res json :=
  match v with
  | JObj fields =>
      match lookup k fields with
      | Some x => Ret x
      | None => Raise (KeyError (quote k))
      end
  | JArr _ => Raise (TypeError "list indices must be integers or slices, not str")
  | JStr _ => Raise (TypeError "string indices must be integers, not 'str'")
  | _ => Raise (TypeError (quote (type_name v) ++ " object is not subscriptable"))
  end.

Definition res_bind {A B} (r : res A) (k : A -> res B) : res B :=
  match r with
  | Ret a => k a
  | Raise e => Raise e
  end.

(** ** The completion client's extraction (source line 156)

    [response_data.get("choices", [{}])[0].get("message", {}).get("content", "")] *)
Definition extract_model_response (response_data : json) : res json :=
  res_bind (py_get response_data "choices" (JArr [JObj []])) (fun choices =>
  res_bind (py_index0 choices) (fun first =>
  res_bind (py_get first "message" (JObj [])) (fun message =>
  py_get message "content" (JStr "")))).

(** ** The handler's projection of the history (source lines 103-109) *)

Definition project_message (msg : json) : res json :=
  res_bind (py_getitem msg "message") (fun msg_data =>
  res_bind (py_getitem msg_data "type") (fun msg_type =>
  res_bind (py_getitem msg_data "content") (fun msg_content =>
  Ret (JObj [("role", msg_type); ("content", msg_content)])))).

(** The loop appends to [messages]; the accumulator is the list built so
    far, and an exception leaves the loop at once. *)
Fixpoint project_loop (messages : list json) (conversation_history : list json)
  : res (list json) :=
  match conversation_history with
  | [] => Ret messages
  | msg :: rest =>
      match project_message msg with
      | Ret m => project_loop (messages ++ [m])%list rest
      | Raise e => Raise e
      end
  end.

Definition project_history (conversation_history : list json) : res (list json) :=
  project_loop [] conversation_history.

(** ** The world

    The store holds the [messages] table; a row has the two columns the code
    names.  Rows are kept in the order of their creation, oldest first. *)
Record Row : Type := mkRow {
  row_session_id : string;
  row_message : json
}.

(** The calls that leave the process. *)
Inductive Call : Type :=
| StoreSelect (session_id : string) (limit : nat)
| StoreInsert (r : Row)
| HttpPost (url : string) (headers : list (string * string)) (payload : json).

(** What the completion API does with one call: [requests.post],
    [raise_for_status] or [response.json] raises a [RequestException] with the
    given text, or the call yields a JSON body. *)
Inductive ApiResult : Type :=
| ApiRaises (message : string)
| ApiJson (body : json).

(** [log] lists the external calls made so far, newest first, each with
    whether it succeeded.  [store_outcome n] and [api_outcome n] say how the
    collaborator answers the call made when [n] calls have been made before:
    [store_outcome n = Some m] is a store fault whose text is [m].  The two
    environment variables are read with [os.getenv]. *)
Record World : Type := mkWorld {
  table : list Row;
  log : list (Call * bool);
  store_outcome : nat -> option string;
  api_outcome : nat -> ApiResult;
  API_BEARER_TOKEN : option string;
  TOGETHER_API_KEY : option string
}.

Definition tick (w : World) : nat := length (log w).

Definition record_call (c : Call) (ok : bool) (w : World) : World :=
  mkWorld (table w) ((c, ok) :: log w) (store_outcome w) (api_outcome w)
          (API_BEARER_TOKEN w) (TOGETHER_API_KEY w).

Definition add_row (r : Row) (w : World) : World :=
  mkWorld (table w ++ [r])%list (log w) (store_outcome w) (api_outcome w)
          (API_BEARER_TOKEN w) (TOGETHER_API_KEY w).

(** The calls in the order they were made. *)
Definition calls (w : World) : list (Call * bool) := rev (log w).

(** ** The monad of the handler: state and exceptions *)

Definition M (A : Type) : Type := World -> res A * World.

Definition ret {A} (a : A) : M A := fun w => (Ret a, w).
Definition raise {A} (e : exn) : M A := fun w => (Raise e, w).
Definition bind {A B} (m : M A) (k : A -> M B) : M B :=
  fun w => match m w with
           | (Ret a, w') => k a w'
           | (Raise e, w') => (Raise e, w')
           end.
Definition lift {A} (r : res A) : M A := fun w => (r, w).

(** [try: m  except Exception as e: h e] *)
Definition try_except {A} (m : M A) (h : exn -> M A) : M A :=
  fun w => match m w with
           | (Ret a, w') => (Ret a, w')
           | (Raise e, w') => h e w'
           end.

Definition is_RequestException (e : exn) : bool :=
  match e with RequestException _ => true | _ => false end.

(** [try: m  except requests.exceptions.RequestException as e: h e] *)
Definition try_except_RequestException {A} (m : M A) (h : exn -> M A) : M A :=
  fun w => match m w with
           | (Ret a, w') => (Ret a, w')
           | (Raise e, w') =>
               if is_RequestException e then h e w' else (Raise e, w')
           end.

Declare Scope py_scope.
Delimit Scope py_scope with py.
Notation "x <- m ;; k" := (bind m (fun x => k))
  (at level 61, m at next level, right associativity) : py_scope.
Notation "m ;;; k" := (bind m (fun _ => k))
  (at level 61, right associativity) : py_scope.
Local Open Scope py_scope.

(** ** The collaborators *)

Definition row_dict (r : Row) : json :=
  JObj [("session_id", JStr (row_session_id r)); ("message", row_message r)].

(** [.eq("session_id", s).order("created_at", desc=True).limit(n)] *)
Definition select_rows (t : list Row) (session_id : string) (limit : nat)
  : list Row :=
  firstn limit
    (rev (filter (fun r => String.eqb (row_session_id r) session_id) t)).

Definition supabase_select (session_id : string) (limit : nat) : M (list json) :=
  fun w =>
    match store_outcome w (tick w) with
    | Some m =>
        (Raise (StoreException m),
         record_call (StoreSelect session_id limit) false w)
    | None =>
        (Ret (map row_dict (select_rows (table w) session_id limit)),
         record_call (StoreSelect session_id limit) true w)
    end.

Definition supabase_insert (r : Row) : M unit :=
  fun w =>
    match store_outcome w (tick w) with
    | Some m => (Raise (StoreException m), record_call (StoreInsert r) false w)
    | None => (Ret tt, record_call (StoreInsert r) true (add_row r w))
    end.

(** [requests.post], [raise_for_status] and [response.json] *)
Definition requests_post_json (url : string) (headers : list (string * string))
  (payload : json) : M json :=
  fun w =>
    match api_outcome w (tick w) with
    | ApiRaises m =>
        (Raise (RequestException m), record_call (HttpPost url headers payload) false w)
    | ApiJson body =>
        (Ret body, record_call (HttpPost url headers payload) true w)
    end.

(** ** The program *)

Record AgentRequest : Type := mkAgentRequest {
  query : string;
  user_id : string;
  request_id : string;
  session_id : string
}.

Record AgentResponse : Type := mkAgentResponse {
  success : bool
}.

(** [security = HTTPBearer()], the dependency of [verify_token].
    [authorization] is the credential of the [Authorization: Bearer] header,
    [None] when the request has no such header.  A request without a
    credential, or with an empty one, does not reach [verify_token]: the
    framework raises its own [HTTPException], whose status code
    [not_authenticated_status] is the framework's and not the repository's. *)
Definition HTTPBearer (not_authenticated_status : Z) (authorization : option string)
  : M string :=
  match authorization with
  | Some (String a rest) => ret (String a rest)
  | _ => raise (HTTPException not_authenticated_status "Not authenticated")
  end.

(** [not expected_token] *)
Definition falsy_token (expected_token : option string) : bool :=
  match expected_token with
  | None => true
  | Some EmptyString => true
  | Some (String _ _) => false
  end.

Definition verify_token (credentials : string) : M bool :=
  fun w =>
    let expected_token := API_BEARER_TOKEN w in
    if falsy_token expected_token then
      raise (HTTPException 500 "API_BEARER_TOKEN environment variable not set") w
    else if negb (String.eqb credentials
                    (match expected_token with Some t => t | None => "" end)) then
      raise (HTTPException 401 "Invalid authentication token") w
    else ret true w.

Definition fetch_conversation_history (session_id : string) (limit : nat)
  : M (list json) :=
  try_except
    (data <- supabase_select session_id limit ;;
     ret (rev data))
    (fun e => raise (HTTPException 500
                       ("Failed to fetch conversation history: " ++ str e))).

(** [if data:] holds for a dict that is not empty. *)
Definition truthy_data (data : option (list (string * json))) : bool :=
  match data with
  | Some (_ :: _) => true
  | _ => false
  end.

Definition message_obj (message_type : string) (content : json)
  (data : option (list (string * json))) : json :=
  JObj ([("type", JStr message_type); ("content", content)]
        ++ (if truthy_data data
            then [("data", JObj (match data with Some d => d | None => [] end))]
            else []))%list.

Definition store_message (session_id : string) (message_type : string)
  (content : json) (data : option (list (string * json))) : M unit :=
  try_except
    (supabase_insert (mkRow session_id (message_obj message_type content data)))
    (fun e => raise (HTTPException 500 ("Failed to store message: " ++ str e))).

Definition url : string := "https://api.together.xyz/v1/chat/completions".

Definition getenv_fstring (v : option string) : string :=
  match v with Some s => s | None => "None" end.

Definition headers (w : World) : list (string * string) :=
  [("Authorization", "Bearer " ++ getenv_fstring (TOGETHER_API_KEY w));
   ("Content-Type", "application/json")].

Definition subconcepts : string :=
  "- Concept 1: "
  ++ "  - Subconcept 1: Explanation (in simple terms, up to 100 words, with examples). "
  ++ "  - Subconcept 2: Explanation (in simple terms, up to 100 words, with examples). "
  ++ "(Continue for additional concepts as needed). ".

Definition content (q : string) : string :=
  "Identify the programming language used in the provided code snippet and list its programming concepts. "
  ++ q
  ++ "If the language is identified, organize the response as follows: "
  ++ "Programming Language: Name of the language. "
  ++ "Programming Concepts: "
  ++ subconcepts
  ++ "If the code provided error : "
  ++ "Programming Concepts to learn to fix the eror: "
  ++ subconcepts
  ++ "If the programming language cannot be identified: "
  ++ "Provide an explanation of the possible programming concepts behind the snippet, following the structure above.".

Definition payload (q : string) : json :=
  JObj [("model", JStr "meta-llama/Llama-3.3-70B-Instruct-Turbo");
        ("messages", JArr [JObj [("role", JStr "user");
                                 ("content", JStr (content q))]])].

Definition apology : string :=
  "I apologize, but I encountered an error processing your request.".

(** The inner [try] (source lines 151-164): only a [RequestException] is
    turned into an [HTTPException]; what the extraction raises goes on to the
    outer handler. *)
Definition call_model (request : AgentRequest) : M json :=
  try_except_RequestException
    (response_data <- (fun w => requests_post_json url (headers w)
                                  (payload (query request)) w) ;;
     lift (extract_model_response response_data))
    (fun e => raise (HTTPException 500 (str e))).

(** The body of the outer [try] (source lines 98-186). *)
Definition agent_body (request : AgentRequest) : M AgentResponse :=
  conversation_history <- fetch_conversation_history (session_id request) 10 ;;
  messages <- lift (project_history conversation_history) ;;
  store_message (session_id request) "human" (JStr (query request)) None ;;;
  model_response <- call_model request ;;
  store_message (session_id request) "ai" model_response
    (Some [("request_id", JStr (request_id request))]) ;;;
  ret (mkAgentResponse true).

(** The [except Exception as e] block (source lines 188-197). *)
Definition agent_except (request : AgentRequest) (e : exn) : M AgentResponse :=
  store_message (session_id request) "ai" (JStr apology)
    (Some [("error", JStr (str e)); ("request_id", JStr (request_id request))]) ;;;
  ret (mkAgentResponse false).

Definition sample_supabase_agent (request : AgentRequest) : M AgentResponse :=
  try_except (agent_body request) (agent_except request).

(** The route: the dependencies run first, then the handler. *)
Definition endpoint (not_authenticated_status : Z) (authorization : option string)
  (request : AgentRequest) : M AgentResponse :=
  credentials <- HTTPBearer not_authenticated_status authorization ;;
  authenticated <- verify_token credentials ;;
  sample_supabase_agent request.

(** The status the framework answers with: 200 with the response model, the
    status of an [HTTPException], 500 for any other exception. *)
Definition http_status (r : res AgentResponse) : Z :=
  match r with
  | Ret _ => 200
  | Raise (HTTPException status_code _) => status_code
  | Raise _ => 500
  end.

(** The History Reader of the design: the fetch, then the handler's
    projection loop, as the first two lines of [agent_body] run them. *)
Definition history_reader (session_id : string) (limit : nat) : M (list json) :=
  conversation_history <- fetch_conversation_history session_id limit ;;
  lift (project_history conversation_history).

Definition human_row (request : AgentRequest) : Row :=
  mkRow (session_id request)
        (message_obj "human" (JStr (query request)) None).

Definition ai_row (request : AgentRequest) (model_response : json) : Row :=
  mkRow (session_id request)
        (message_obj "ai" model_response
           (Some [("request_id", JStr (request_id request))])).

Definition apology_row (request : AgentRequest) (e : exn) : Row :=
  mkRow (session_id request)
        (message_obj "ai" (JStr apology)
           (Some [("error", JStr (str e));
                  ("request_id", JStr (request_id request))])).

Definition post_call (request : AgentRequest) (w : World) : Call :=
  HttpPost url (headers w) (payload (query request)).

(** The role tag of a stored row, and counting rows by it. *)
Definition has_type (t : string) (r : Row) : bool :=
  match row_message r with
  | JObj fields =>
      match lookup "type" fields with
      | Some (JStr t') => String.eqb t t'
      | _ => false
      end
  | _ => false
  end.

Definition count_type (t : string) (rows : list Row) : nat :=
  length (filter (has_type t) rows).

(** The session's rows in the order of their creation, and the last [n]
    elements of a list. *)
Definition session_rows (t : list Row) (session_id : string) : list Row :=
  filter (fun r => String.eqb (row_session_id r) session_id) t.

Definition last_n {A} (n : nat) (l : list A) : list A :=
  skipn (length l - n) l.

(** [w1] is [w] after the rows [rows] were added and the calls [cs] made. *)
Definition Extends (w : World) (rows : list Row) (cs : list (Call * bool))
  (w1 : World) : Prop :=
  table w1 = (table w ++ rows)%list
  /\ log w1 = (rev cs ++ log w)%list
  /\ store_outcome w1 = store_outcome w
  /\ api_outcome w1 = api_outcome w
  /\ API_BEARER_TOKEN w1 = API_BEARER_TOKEN w
  /\ TOGETHER_API_KEY w1 = TOGETHER_API_KEY w.

(** The ways the body of the [try] ends, with the rows it has added and the
    calls it has made. *)
Inductive BodyRun (request : AgentRequest) (w : World)
  : res AgentResponse -> list Row -> list (Call * bool) -> Prop :=
| BodyDone (c : json) :
    BodyRun request w (Ret (mkAgentResponse true))
      [human_row request; ai_row request c]
      [(StoreSelect (session_id request) 10, true);
       (StoreInsert (human_row request), true);
       (post_call request w, true);
       (StoreInsert (ai_row request c), true)]
| BodyFetchFailed (m : string) :
    BodyRun request w
      (Raise (HTTPException 500 ("Failed to fetch conversation history: " ++ m)))
      []
      [(StoreSelect (session_id request) 10, false)]
| BodyProjectionFailed (e : exn) :
    BodyRun request w (Raise e) []
      [(StoreSelect (session_id request) 10, true)]
| BodyUserWriteFailed (m : string) :
    BodyRun request w
      (Raise (HTTPException 500 ("Failed to store message: " ++ m)))
      []
      [(StoreSelect (session_id request) 10, true);
       (StoreInsert (human_row request), false)]
| BodyRequestFailed (m : string) :
    BodyRun request w (Raise (HTTPException 500 m))
      [human_row request]
      [(StoreSelect (session_id request) 10, true);
       (StoreInsert (human_row request), true);
       (post_call request w, false)]
| BodyExtractionFailed (e : exn) :
    BodyRun request w (Raise e)
      [human_row request]
      [(StoreSelect (session_id request) 10, true);
       (StoreInsert (human_row request), true);
       (post_call request w, true)]
| BodyAssistantWriteFailed (c : json) (m : string) :
    BodyRun request w
      (Raise (HTTPException 500 ("Failed to store message: " ++ m)))
      [human_row request]
      [(StoreSelect (session_id request) 10, true);
       (StoreInsert (human_row request), true);
       (post_call request w, true);
       (StoreInsert (ai_row request c), false)].

(** The ways the handler ends: the body is done; the body failed and the
    apology was stored; the body failed and the apology could not be stored. *)
Inductive HandlerRun (request : AgentRequest) (w : World)
  : res AgentResponse -> list Row -> list (Call * bool) -> Prop :=
| HandlerDone rows cs :
    BodyRun request w (Ret (mkAgentResponse true)) rows cs ->
    HandlerRun request w (Ret (mkAgentResponse true)) rows cs
| HandlerApologised e rows cs :
    BodyRun request w (Raise e) rows cs ->
    HandlerRun request w (Ret (mkAgentResponse false))
      (rows ++ [apology_row request e])%list
      (cs ++ [(StoreInsert (apology_row request e), true)])%list
| HandlerApologyLost e m rows cs :
    BodyRun request w (Raise e) rows cs ->
    HandlerRun request w
      (Raise (HTTPException 500 ("Failed to store message: " ++ m)))
      rows
      (cs ++ [(StoreInsert (apology_row request e), false)])%list.

(** Whether a completion call is among the calls. *)
Definition is_post (c : Call * bool) : bool :=
  match fst c with HttpPost _ _ _ => true | _ => false end.

Definition completion_attempted (cs : list (Call * bool)) : bool :=
  existsb is_post cs.

(** What [fetch_conversation_history] hands to the handler when the store
    answers. *)
Definition history_of (request : AgentRequest) (w : World) : list json :=
  rev (map row_dict (select_rows (table w) (session_id request) 10)).

(** ** Worlds and requests to run the program on *)

Definition turn (message_type content : string) : json :=
  JObj [("type", JStr message_type); ("content", JStr content)].

Definition role_content (role content : string) : json :=
  JObj [("role", JStr role); ("content", JStr content)].

Definition body_python : json :=
  JObj [("choices",
         JArr [JObj [("message", JObj [("role", JStr "assistant");
                                       ("content", JStr "Python")])]])].

Definition body_no_choice : json := JObj [("choices", JArr [])].

Definition request_1 : AgentRequest :=
  mkAgentRequest "print(1)" "u1" "r1" "s1".

(** Both collaborators answer; the table is empty. *)
Definition world_quiet : World :=
  mkWorld [] [] (fun _ => None) (fun _ => ApiJson body_python)
          (Some "secret") (Some "key").

(** The store refuses every call. *)
Definition world_store_down : World :=
  mkWorld [] [] (fun _ => Some "connection refused")
          (fun _ => ApiJson body_python) (Some "secret") (Some "key").

(** The store refuses the first call only. *)
Definition world_select_fails : World :=
  mkWorld [] [] (fun n => if Nat.eqb n 0 then Some "timeout" else None)
          (fun _ => ApiJson body_python) (Some "secret") (Some "key").

(** The completion API answers with a non-success status. *)
Definition world_api_down : World :=
  mkWorld [] [] (fun _ => None)
          (fun _ => ApiRaises "502 Server Error: Bad Gateway")
          (Some "secret") (Some "key").

(** The completion API answers 200 with an empty list of choices. *)
Definition world_no_choice : World :=
  mkWorld [] [] (fun _ => None) (fun _ => ApiJson body_no_choice)
          (Some "secret") (Some "key").

(** The secret is configured as the empty string. *)
Definition world_empty_secret : World :=
  mkWorld [] [] (fun _ => None) (fun _ => ApiJson body_python)
          (Some "") (Some "key").

(** Session [s1] holds two turns; the [ai] one was created first, so the
    store, newest first, returns the [human] one first. *)
Definition world_two_turns : World :=
  mkWorld [mkRow "s1" (turn "ai" "b"); mkRow "s1" (turn "human" "a")] []
          (fun _ => None) (fun _ => ApiJson body_python)
          (Some "secret") (Some "key").

(** ** Notions for the further properties *)

(** A row the projection loop can read: its message is a dict that has the
    keys [type] and [content]. *)
Definition well_formed_row (r : Row) : bool :=
  match row_message r with
  | JObj fields =>
      match lookup "type" fields, lookup "content" fields with
      | Some _, Some _ => true
      | _, _ => false
      end
  | _ => false
  end.

Definition is_select (c : Call * bool) : bool :=
  match fst c with StoreSelect _ _ => true | _ => false end.

Definition is_insert (c : Call * bool) : bool :=
  match fst c with StoreInsert _ => true | _ => false end.

Definition count_calls (p : Call * bool -> bool) (cs : list (Call * bool)) : nat :=
  length (filter p cs).

(** The store refuses the second call only. *)
Definition world_user_write_fails : World :=
  mkWorld [] [] (fun n => if Nat.eqb n 1 then Some "timeout" else None)
          (fun _ => ApiJson body_python) (Some "secret") (Some "key").

(** The store refuses the fourth call only. *)
Definition world_assistant_write_fails : World :=
  mkWorld [] [] (fun n => if Nat.eqb n 3 then Some "timeout" else None)
          (fun _ => ApiJson body_python) (Some "secret") (Some "key").

(** Session [s1] holds a row whose message is null. *)
Definition world_null_message : World :=
  mkWorld [mkRow "s1" JNull] [] (fun _ => None) (fun _ => ApiJson body_python)
          (Some "secret") (Some "key").

(** Two sessions, and more rows in [s1] than a small limit lets through. *)
Definition world_two_sessions : World :=
  mkWorld [mkRow "s1" (turn "human" "one"); mkRow "s2" (turn "human" "x");
           mkRow "s1" (turn "ai" "two"); mkRow "s1" (turn "human" "three")]
          [] (fun _ => None) (fun _ => ApiJson body_python)
          (Some "secret") (Some "key").

(** ** Notions for the revised properties *)

(** No token is configured, and the store answers. *)
Definition world_no_token : World :=
  mkWorld [] [] (fun _ => None) (fun _ => ApiJson body_python)
          None (Some "key").

(** The completion API fails, and the store refuses the fourth call, which
    is the insert of the apology. *)
Definition world_api_down_apology_refused : World :=
  mkWorld [] [] (fun n => if Nat.eqb n 3 then Some "timeout" else None)
          (fun _ => ApiRaises "502 Server Error: Bad Gateway")
          (Some "secret") (Some "key").

(** The steps before the completion call: the select, the projection of
    what it returned, and the insert of the user's turn. *)
Definition reaches_completion (request : AgentRequest) (w : World) : bool :=
  match store_outcome w (tick w) with
  | Some _ => false
  | None =>
      is_Ret (project_history (history_of request w))
      && match store_outcome w (1 + tick w) with
         | Some _ => false
         | None => true
         end
  end.

(** The calls made between the world [w] and the later world [w']. *)
Definition new_calls (w w' : World) : list (Call * bool) :=
  skipn (length (calls w)) (calls w').

(** * Properties *)

(** ** Worlds *)

Lemma Extends_refl w : Extends w [] [] w.
Proof.
  unfold Extends. rewrite app_nil_r. simpl. repeat split; reflexivity.
Qed.

Lemma Extends_trans w r1 c1 w1 r2 c2 w2 :
  Extends w r1 c1 w1 -> Extends w1 r2 c2 w2 ->
  Extends w (r1 ++ r2)%list (c1 ++ c2)%list w2.
Proof.
  intros (Ht & Hl & Hs & Ha & Hb & Hk) (Ht' & Hl' & Hs' & Ha' & Hb' & Hk').
  unfold Extends.
  rewrite Ht', Ht, Hl', Hl, Hs', Hs, Ha', Ha, Hb', Hb, Hk', Hk.
  rewrite rev_app_distr, !app_assoc. repeat split; reflexivity.
Qed.

Lemma Extends_tick w rows cs w1 :
  Extends w rows cs w1 -> tick w1 = length cs + tick w.
Proof.
  intros (_ & Hl & _). unfold tick. rewrite Hl, length_app, length_rev.
  reflexivity.
Qed.

Lemma Extends_calls w rows cs w1 :
  Extends w rows cs w1 -> calls w1 = (calls w ++ cs)%list.
Proof.
  intros (_ & Hl & _). unfold calls. rewrite Hl, rev_app_distr, rev_involutive.
  reflexivity.
Qed.

Lemma Extends_call (c : Call) (ok : bool) w :
  Extends w [] [(c, ok)] (record_call c ok w).
Proof.
  unfold Extends. simpl. rewrite app_nil_r. repeat split; reflexivity.
Qed.

Lemma Extends_insert (r : Row) w :
  Extends w [r] [(StoreInsert r, true)]
    (record_call (StoreInsert r) true (add_row r w)).
Proof. unfold Extends. simpl. repeat split; reflexivity. Qed.

(** ** The collaborators and the two store functions, step by step *)

Lemma supabase_select_ok sid n w :
  store_outcome w (tick w) = None ->
  supabase_select sid n w
  = (Ret (map row_dict (select_rows (table w) sid n)),
     record_call (StoreSelect sid n) true w).
Proof. intros H. unfold supabase_select. rewrite H. reflexivity. Qed.

Lemma fetch_ok sid n w :
  store_outcome w (tick w) = None ->
  fetch_conversation_history sid n w
  = (Ret (rev (map row_dict (select_rows (table w) sid n))),
     record_call (StoreSelect sid n) true w).
Proof.
  intros H. unfold fetch_conversation_history, try_except, bind.
  rewrite (supabase_select_ok _ _ _ H). reflexivity.
Qed.

Lemma fetch_fail sid n w m :
  store_outcome w (tick w) = Some m ->
  fetch_conversation_history sid n w
  = (Raise (HTTPException 500 ("Failed to fetch conversation history: " ++ m)),
     record_call (StoreSelect sid n) false w).
Proof.
  intros H. unfold fetch_conversation_history, try_except, bind, supabase_select.
  rewrite H. reflexivity.
Qed.

Lemma store_message_ok sid t c d w :
  store_outcome w (tick w) = None ->
  store_message sid t c d w
  = (Ret tt,
     record_call (StoreInsert (mkRow sid (message_obj t c d))) true
       (add_row (mkRow sid (message_obj t c d)) w)).
Proof.
  intros H. unfold store_message, try_except, supabase_insert.
  rewrite H. reflexivity.
Qed.

Lemma store_message_fail sid t c d w m :
  store_outcome w (tick w) = Some m ->
  store_message sid t c d w
  = (Raise (HTTPException 500 ("Failed to store message: " ++ m)),
     record_call (StoreInsert (mkRow sid (message_obj t c d))) false w).
Proof.
  intros H. unfold store_message, try_except, supabase_insert.
  rewrite H. reflexivity.
Qed.

(** Nothing the extraction raises is a [RequestException], so the inner
    [except] clause lets it pass. *)
Lemma py_get_not_RequestException v k d e :
  py_get v k d = Raise e -> is_RequestException e = false.
Proof.
  destruct v; simpl; try (intros H; inversion H; reflexivity).
  destruct (lookup k fields); discriminate.
Qed.

Lemma py_index0_not_RequestException v e :
  py_index0 v = Raise e -> is_RequestException e = false.
Proof.
  destruct v as [| | | |s|items|]; simpl;
    try (intros H; inversion H; reflexivity).
  - destruct s; intros H; inversion H; reflexivity.
  - destruct items; intros H; inversion H; reflexivity.
Qed.

Lemma extract_not_RequestException body e :
  extract_model_response body = Raise e -> is_RequestException e = false.
Proof.
  unfold extract_model_response, res_bind.
  destruct (py_get body "choices" _) as [choices|e1] eqn:E1.
  2: { intros H; inversion H; subst.
       eapply py_get_not_RequestException; eassumption. }
  destruct (py_index0 choices) as [first|e2] eqn:E2.
  2: { intros H; inversion H; subst.
       eapply py_index0_not_RequestException; eassumption. }
  destruct (py_get first "message" _) as [message|e3] eqn:E3.
  2: { intros H; inversion H; subst.
       eapply py_get_not_RequestException; eassumption. }
  apply py_get_not_RequestException.
Qed.

Lemma call_model_raises request w m :
  api_outcome w (tick w) = ApiRaises m ->
  call_model request w
  = (Raise (HTTPException 500 m), record_call (post_call request w) false w).
Proof.
  intros H.
  unfold call_model, try_except_RequestException, bind, requests_post_json.
  rewrite H. reflexivity.
Qed.

Lemma call_model_json request w body :
  api_outcome w (tick w) = ApiJson body ->
  call_model request w
  = (extract_model_response body, record_call (post_call request w) true w).
Proof.
  intros H.
  unfold call_model, try_except_RequestException, bind, requests_post_json, lift.
  rewrite H.
  destruct (extract_model_response body) as [c|e] eqn:E; [reflexivity|].
  rewrite (extract_not_RequestException _ _ E). reflexivity.
Qed.

(** ** Every run of the body and of the handler *)

Ltac extends :=
  unfold Extends; simpl; rewrite <- ?app_assoc, ?app_nil_r; simpl;
  repeat split; reflexivity.

Lemma agent_body_cases request w :
  exists rows cs,
    Extends w rows cs (snd (agent_body request w))
    /\ BodyRun request w (fst (agent_body request w)) rows cs.
Proof.
  unfold agent_body, bind.
  destruct (store_outcome w (tick w)) as [m0|] eqn:E0.
  { rewrite (fetch_fail _ _ _ _ E0). simpl.
    do 2 eexists; split; [| apply BodyFetchFailed]. extends. }
  rewrite (fetch_ok _ _ _ E0). unfold lift.
  set (w1 := record_call (StoreSelect (session_id request) 10) true w).
  destruct (project_history _) as [messages|e] eqn:EP.
  2: { simpl. do 2 eexists; split; [| apply BodyProjectionFailed]. extends. }
  destruct (store_outcome w1 (tick w1)) as [m1|] eqn:E1.
  { rewrite (store_message_fail _ _ _ _ _ _ E1). simpl.
    do 2 eexists; split; [| apply BodyUserWriteFailed]. extends. }
  rewrite (store_message_ok _ _ _ _ _ E1).
  fold (human_row request).
  set (w2 := record_call (StoreInsert (human_row request)) true
               (add_row (human_row request) w1)).
  destruct (api_outcome w2 (tick w2)) as [m2|body] eqn:E2.
  { rewrite (call_model_raises _ _ _ E2). simpl.
    do 2 eexists; split; [| apply BodyRequestFailed]. extends. }
  rewrite (call_model_json _ _ _ E2).
  destruct (extract_model_response body) as [c|e] eqn:EX.
  2: { simpl. do 2 eexists; split; [| apply BodyExtractionFailed]. extends. }
  set (w3 := record_call (post_call request w2) true w2).
  destruct (store_outcome w3 (tick w3)) as [m3|] eqn:E3.
  { rewrite (store_message_fail _ _ _ _ _ _ E3). simpl.
    do 2 eexists; split; [| apply (BodyAssistantWriteFailed _ _ c)]. extends. }
  rewrite (store_message_ok _ _ _ _ _ E3). simpl.
  do 2 eexists; split; [| apply (BodyDone _ _ c)]. extends.
Qed.

Lemma BodyRun_Ret request w a rows cs :
  BodyRun request w (Ret a) rows cs -> a = mkAgentResponse true.
Proof. intros H. inversion H. reflexivity. Qed.

Lemma handler_cases request w :
  exists rows cs,
    Extends w rows cs (snd (sample_supabase_agent request w))
    /\ HandlerRun request w (fst (sample_supabase_agent request w)) rows cs.
Proof.
  unfold sample_supabase_agent, try_except.
  destruct (agent_body_cases request w) as (rows & cs & HE & HR).
  destruct (agent_body request w) as [[a|e] w1]; simpl in HE, HR.
  - pose proof (BodyRun_Ret _ _ _ _ _ HR) as ->. simpl.
    exists rows, cs. split; [assumption | apply HandlerDone; assumption].
  - unfold agent_except, bind.
    destruct (store_outcome w1 (tick w1)) as [m|] eqn:E.
    + rewrite (store_message_fail _ _ _ _ _ _ E). simpl.
      exists rows, (cs ++ [(StoreInsert (apology_row request e), false)])%list.
      split; [| apply HandlerApologyLost; assumption].
      rewrite <- (app_nil_r rows).
      eapply Extends_trans; [eassumption | apply Extends_call].
    + rewrite (store_message_ok _ _ _ _ _ E). simpl.
      do 2 eexists. split; [| apply HandlerApologised; eassumption].
      eapply Extends_trans; [eassumption | apply Extends_insert].
Qed.

(** ** Authentication *)

Lemma falsy_token_Some t : t <> "" -> falsy_token (Some t) = false.
Proof. destruct t; [congruence | reflexivity]. Qed.

Lemma verify_token_accepts t w :
  API_BEARER_TOKEN w = Some t -> t <> "" ->
  verify_token t w = (Ret true, w).
Proof.
  intros Ht Hne. unfold verify_token. rewrite Ht, (falsy_token_Some _ Hne).
  rewrite String.eqb_refl. reflexivity.
Qed.

Lemma endpoint_authenticated s t request w :
  API_BEARER_TOKEN w = Some t -> t <> "" ->
  endpoint s (Some t) request w = sample_supabase_agent request w.
Proof.
  intros Ht Hne. unfold endpoint, bind, HTTPBearer, ret.
  destruct t as [|a rest]; [congruence |].
  rewrite (verify_token_accepts _ _ Ht Hne). reflexivity.
Qed.

(** ** Runs in which the steps succeed *)

Lemma agent_body_success request w messages body c :
  store_outcome w (tick w) = None ->
  project_history (history_of request w) = Ret messages ->
  store_outcome w (1 + tick w) = None ->
  api_outcome w (2 + tick w) = ApiJson body ->
  extract_model_response body = Ret c ->
  store_outcome w (3 + tick w) = None ->
  exists w',
    agent_body request w = (Ret (mkAgentResponse true), w')
    /\ Extends w [human_row request; ai_row request c]
         [(StoreSelect (session_id request) 10, true);
          (StoreInsert (human_row request), true);
          (post_call request w, true);
          (StoreInsert (ai_row request c), true)] w'.
Proof.
  intros H0 HP H1 H2 HX H3. unfold agent_body, bind.
  rewrite (fetch_ok _ _ _ H0). unfold lift, history_of in *. rewrite HP.
  set (w1 := record_call (StoreSelect (session_id request) 10) true w).
  rewrite (store_message_ok _ _ _ _ w1 H1).
  fold (human_row request).
  set (w2 := record_call (StoreInsert (human_row request)) true
               (add_row (human_row request) w1)).
  rewrite (call_model_json request w2 body H2), HX.
  set (w3 := record_call (post_call request w2) true w2).
  rewrite (store_message_ok _ _ _ _ w3 H3).
  eexists. split; [reflexivity | extends].
Qed.

Lemma agent_body_completion_fails request w messages m :
  store_outcome w (tick w) = None ->
  project_history (history_of request w) = Ret messages ->
  store_outcome w (1 + tick w) = None ->
  api_outcome w (2 + tick w) = ApiRaises m ->
  exists w1,
    agent_body request w = (Raise (HTTPException 500 m), w1)
    /\ Extends w [human_row request]
         [(StoreSelect (session_id request) 10, true);
          (StoreInsert (human_row request), true);
          (post_call request w, false)] w1.
Proof.
  intros H0 HP H1 H2. unfold agent_body, bind.
  rewrite (fetch_ok _ _ _ H0). unfold lift, history_of in *. rewrite HP.
  set (w1 := record_call (StoreSelect (session_id request) 10) true w).
  rewrite (store_message_ok _ _ _ _ w1 H1).
  fold (human_row request).
  set (w2 := record_call (StoreInsert (human_row request)) true
               (add_row (human_row request) w1)).
  rewrite (call_model_raises request w2 m H2).
  eexists. split; [reflexivity | extends].
Qed.

Lemma agent_body_fetch_fails request w m :
  store_outcome w (tick w) = Some m ->
  exists w1,
    agent_body request w
    = (Raise (HTTPException 500
                ("Failed to fetch conversation history: " ++ m)), w1)
    /\ Extends w [] [(StoreSelect (session_id request) 10, false)] w1.
Proof.
  intros H0. unfold agent_body, bind. rewrite (fetch_fail _ _ _ _ H0).
  eexists. split; [reflexivity | extends].
Qed.

Lemma agent_body_user_write_fails request w messages m :
  store_outcome w (tick w) = None ->
  project_history (history_of request w) = Ret messages ->
  store_outcome w (1 + tick w) = Some m ->
  exists w1,
    agent_body request w
    = (Raise (HTTPException 500 ("Failed to store message: " ++ m)), w1)
    /\ Extends w []
         [(StoreSelect (session_id request) 10, true);
          (StoreInsert (human_row request), false)] w1.
Proof.
  intros H0 HP H1. unfold agent_body, bind.
  rewrite (fetch_ok _ _ _ H0). unfold lift, history_of in *. rewrite HP.
  set (w1 := record_call (StoreSelect (session_id request) 10) true w).
  rewrite (store_message_fail _ _ _ _ w1 _ H1).
  eexists. split; [reflexivity | extends].
Qed.

Lemma agent_body_assistant_write_fails request w messages body c m :
  store_outcome w (tick w) = None ->
  project_history (history_of request w) = Ret messages ->
  store_outcome w (1 + tick w) = None ->
  api_outcome w (2 + tick w) = ApiJson body ->
  extract_model_response body = Ret c ->
  store_outcome w (3 + tick w) = Some m ->
  exists w1,
    agent_body request w
    = (Raise (HTTPException 500 ("Failed to store message: " ++ m)), w1)
    /\ Extends w [human_row request]
         [(StoreSelect (session_id request) 10, true);
          (StoreInsert (human_row request), true);
          (post_call request w, true);
          (StoreInsert (ai_row request c), false)] w1.
Proof.
  intros H0 HP H1 H2 HX H3. unfold agent_body, bind.
  rewrite (fetch_ok _ _ _ H0). unfold lift, history_of in *. rewrite HP.
  set (w1 := record_call (StoreSelect (session_id request) 10) true w).
  rewrite (store_message_ok _ _ _ _ w1 H1).
  fold (human_row request).
  set (w2 := record_call (StoreInsert (human_row request)) true
               (add_row (human_row request) w1)).
  rewrite (call_model_json request w2 body H2), HX.
  set (w3 := record_call (post_call request w2) true w2).
  rewrite (store_message_fail _ _ _ _ w3 _ H3).
  eexists. split; [reflexivity | extends].
Qed.

(** The [except] block when its write succeeds. *)
Lemma handler_apologises request w e w1 :
  agent_body request w = (Raise e, w1) ->
  store_outcome w1 (tick w1) = None ->
  exists w2,
    sample_supabase_agent request w = (Ret (mkAgentResponse false), w2)
    /\ Extends w1 [apology_row request e]
         [(StoreInsert (apology_row request e), true)] w2.
Proof.
  intros HB HS. unfold sample_supabase_agent, try_except. rewrite HB.
  unfold agent_except, bind. rewrite (store_message_ok _ _ _ _ _ HS).
  eexists. split; [reflexivity | apply Extends_insert].
Qed.

(** The [except] block when its write fails: the exception of
    [store_message] leaves the handler. *)
Lemma handler_apology_lost request w e w1 m :
  agent_body request w = (Raise e, w1) ->
  store_outcome w1 (tick w1) = Some m ->
  sample_supabase_agent request w
  = (Raise (HTTPException 500 ("Failed to store message: " ++ m)),
     record_call (StoreInsert (apology_row request e)) false w1).
Proof.
  intros HB HS. unfold sample_supabase_agent, try_except. rewrite HB.
  unfold agent_except, bind. rewrite (store_message_fail _ _ _ _ _ _ HS).
  reflexivity.
Qed.

(** ** The History Reader *)

Lemma rev_firstn_rev {A} (n : nat) (l : list A) :
  rev (firstn n (rev l)) = last_n n l.
Proof.
  unfold last_n. rewrite firstn_rev, rev_involutive. reflexivity.
Qed.

Lemma supabase_select_Ret sid limit w data w' :
  supabase_select sid limit w = (Ret data, w') ->
  store_outcome w (tick w) = None
  /\ data = map row_dict (select_rows (table w) sid limit)
  /\ w' = record_call (StoreSelect sid limit) true w.
Proof.
  intros H. unfold supabase_select in H.
  destruct (store_outcome w (tick w)) as [m|] eqn:E; [discriminate|].
  injection H as <- <-. repeat split.
Qed.

(** C3.  Whatever sequence of records the store returns for a session, the
    records being its newest first and at most [limit] of them,
    [fetch_conversation_history] returns exactly the reversal of that
    sequence, which is the session's last [limit] records in the order of
    their creation, oldest first. *)
Theorem fetch_conversation_history_reverses sid limit w data w' :
  supabase_select sid limit w = (Ret data, w') ->
  fetch_conversation_history sid limit w = (Ret (rev data), w')
  /\ length data <= limit
  /\ rev data = map row_dict (last_n limit (session_rows (table w) sid)).
Proof.
  intros H. destruct (supabase_select_Ret _ _ _ _ _ H) as (E & -> & ->).
  split; [| split].
  - apply fetch_ok; assumption.
  - rewrite length_map. unfold select_rows. apply firstn_le_length.
  - rewrite <- map_rev. unfold select_rows. rewrite rev_firstn_rev.
    reflexivity.
Qed.

Lemma fetch_conversation_history_reverses_witness :
  let data := [row_dict (mkRow "s1" (turn "human" "a"));
               row_dict (mkRow "s1" (turn "ai" "b"))] in
  let w' := record_call (StoreSelect "s1" 10) true world_two_turns in
  supabase_select "s1" 10 world_two_turns = (Ret data, w')
  /\ fetch_conversation_history "s1" 10 world_two_turns = (Ret (rev data), w')
  /\ length data <= 10
  /\ rev data
     = map row_dict (last_n 10 (session_rows (table world_two_turns) "s1")).
Proof.
  split; [reflexivity |].
  apply (fetch_conversation_history_reverses "s1" 10 world_two_turns).
  reflexivity.
Defined.

Lemma history_reader_run sid limit w data w' :
  supabase_select sid limit w = (Ret data, w') ->
  history_reader sid limit w = (project_history (rev data), w').
Proof.
  intros H. destruct (supabase_select_Ret _ _ _ _ _ H) as (E & -> & ->).
  unfold history_reader, bind, lift. rewrite (fetch_ok _ _ _ E).
  reflexivity.
Qed.

(** C4, as stated, fails: when the store returns, newest first, the [human]
    turn [a] and then the [ai] turn [b], the reader does not yield the
    [human] turn first. *)
Lemma history_reader_two_turns_not_in_store_order :
  fst (supabase_select "s1" 10 world_two_turns)
  = Ret [row_dict (mkRow "s1" (turn "human" "a"));
         row_dict (mkRow "s1" (turn "ai" "b"))]
  /\ fst (history_reader "s1" 10 world_two_turns)
     <> Ret [role_content "human" "a"; role_content "ai" "b"].
Proof.
  split; [reflexivity |].
  vm_compute. intros H. discriminate H.
Qed.

(** C4, amended.  When the store returns, newest first, a record whose
    message is the [human] turn [a] and then a record whose message is the
    [ai] turn [b], the History Reader yields the reversed sequence: the pair
    for [ai], [b] first and the pair for [human], [a] second. *)
Theorem history_reader_two_turns sid limit w w' d1 d2 :
  supabase_select sid limit w = (Ret [d1; d2], w') ->
  py_getitem d1 "message" = Ret (turn "human" "a") ->
  py_getitem d2 "message" = Ret (turn "ai" "b") ->
  history_reader sid limit w
  = (Ret [role_content "ai" "b"; role_content "human" "a"], w').
Proof.
  intros H H1 H2. rewrite (history_reader_run _ _ _ _ _ H).
  unfold project_history. simpl. unfold project_message.
  rewrite H2. simpl. rewrite H1. reflexivity.
Qed.

Lemma history_reader_two_turns_witness :
  history_reader "s1" 10 world_two_turns
  = (Ret [role_content "ai" "b"; role_content "human" "a"],
     record_call (StoreSelect "s1" 10) true world_two_turns).
Proof.
  apply (history_reader_two_turns "s1" 10 world_two_turns _
           (row_dict (mkRow "s1" (turn "human" "a")))
           (row_dict (mkRow "s1" (turn "ai" "b"))));
    reflexivity.
Defined.

(** ** The Completion Client's extraction *)

(** The shapes the defaults of the three [get] calls cover. *)
Lemma extract_first_choice fields rest choice message c :
  lookup "choices" fields = Some (JArr (JObj choice :: rest)) ->
  lookup "message" choice = Some (JObj message) ->
  lookup "content" message = Some c ->
  extract_model_response (JObj fields) = Ret c.
Proof.
  intros H1 H2 H3. unfold extract_model_response. simpl.
  rewrite H1. simpl. rewrite H2. simpl. rewrite H3. reflexivity.
Qed.

Lemma extract_missing_choices fields :
  lookup "choices" fields = None ->
  extract_model_response (JObj fields) = Ret (JStr "").
Proof.
  intros H. unfold extract_model_response. simpl. rewrite H. reflexivity.
Qed.

Lemma extract_missing_message fields rest choice :
  lookup "choices" fields = Some (JArr (JObj choice :: rest)) ->
  lookup "message" choice = None ->
  extract_model_response (JObj fields) = Ret (JStr "").
Proof.
  intros H1 H2. unfold extract_model_response. simpl.
  rewrite H1. simpl. rewrite H2. reflexivity.
Qed.

Lemma extract_missing_content fields rest choice message :
  lookup "choices" fields = Some (JArr (JObj choice :: rest)) ->
  lookup "message" choice = Some (JObj message) ->
  lookup "content" message = None ->
  extract_model_response (JObj fields) = Ret (JStr "").
Proof.
  intros H1 H2 H3. unfold extract_model_response. simpl.
  rewrite H1. simpl. rewrite H2. simpl. rewrite H3. reflexivity.
Qed.

(** C5.  The extraction is not total: on the JSON body whose [choices] is
    the empty list, subscripting with [0] raises [IndexError]; on a body
    that is a list, [get] raises [AttributeError]; on [choices] being null,
    the subscript raises [TypeError]. *)
Theorem extract_model_response_raises :
  extract_model_response body_no_choice
  = Raise (IndexError "list index out of range")
  /\ extract_model_response (JArr [])
     = Raise (AttributeError "'list' object has no attribute 'get'")
  /\ extract_model_response (JObj [("choices", JNull)])
     = Raise (TypeError "'NoneType' object is not subscriptable").
Proof. repeat split. Qed.

(** What the caller sees then: the exception is not a [RequestException],
    the outer handler stores the apology and answers [success = false]. *)
Lemma no_choice_request :
  exists w',
    endpoint 401 (Some "secret") request_1 world_no_choice
    = (Ret (mkAgentResponse false), w')
    /\ table w'
       = [human_row request_1;
          apology_row request_1 (IndexError "list index out of range")].
Proof. eexists. split; reflexivity. Qed.

(** ** The Token Verifier *)

Lemma verify_token_not_configured c w :
  falsy_token (API_BEARER_TOKEN w) = true ->
  verify_token c w
  = (Raise (HTTPException 500 "API_BEARER_TOKEN environment variable not set"),
     w).
Proof. intros H. unfold verify_token. rewrite H. reflexivity. Qed.

Lemma verify_token_mismatch c t w :
  API_BEARER_TOKEN w = Some t -> t <> "" -> c <> t ->
  verify_token c w
  = (Raise (HTTPException 401 "Invalid authentication token"), w).
Proof.
  intros Ht Hne Hc. unfold verify_token. rewrite Ht, (falsy_token_Some _ Hne).
  apply String.eqb_neq in Hc. rewrite Hc. reflexivity.
Qed.



(** C8, as stated, fails.  A request without a credential, when no token
    is configured, is answered by the bearer scheme and not with the 500
    configuration error, whatever status the scheme uses; and no status of
    the scheme makes both parts of the statement hold, since for that
    request one part asks for 401 and the other for 500. *)
Lemma missing_credential_precedes_configuration_error :
  API_BEARER_TOKEN world_no_token = None
  /\ endpoint 401 None request_1 world_no_token
     = (Raise (HTTPException 401 "Not authenticated"), world_no_token)
  /\ endpoint 403 None request_1 world_no_token
     = (Raise (HTTPException 403 "Not authenticated"), world_no_token)
  /\ http_status (fst (endpoint 401 None request_1 world_no_token)) <> 500%Z
  /\ http_status (fst (endpoint 403 None request_1 world_no_token)) <> 500%Z
  /\ http_status (fst (endpoint 403 None request_1 world_no_token)) <> 401%Z
  /\ ~ (exists s,
          forall authorization request w,
            ((authorization = None
              \/ exists c t, authorization = Some c
                             /\ API_BEARER_TOKEN w = Some t /\ c <> t) ->
             http_status (fst (endpoint s authorization request w)) = 401%Z)
            /\ (falsy_token (API_BEARER_TOKEN w) = true ->
                http_status (fst (endpoint s authorization request w))
                = 500%Z)).
Proof.
  split; [reflexivity |]. split; [reflexivity |]. split; [reflexivity |].
  split; [simpl; discriminate |]. split; [simpl; discriminate |].
  split; [simpl; discriminate |].
  intros (s & H).
  destruct (H None request_1 world_no_token) as (H1 & H2).
  specialize (H1 (or_introl eq_refl)). specialize (H2 eq_refl).
  simpl in H1, H2. rewrite H1 in H2. discriminate H2.
Qed.

(** C8, amended.  A request is rejected before any call to the store: the
    world, and with it the table and the log of calls, is left as it was.
    A presented credential that differs from the configured token is
    rejected with 401; when no token is configured, unset or empty, a
    presented credential is rejected with the 500 configuration error.  A
    request whose credential is missing or empty does not reach
    [verify_token], whatever is configured: the bearer scheme of the
    framework rejects it, with the status code the framework uses. *)
Theorem rejected_before_store_access s authorization request w :
  (authorization = None \/ authorization = Some "" ->
     endpoint s authorization request w
     = (Raise (HTTPException s "Not authenticated"), w))
  /\ (forall c t, authorization = Some c -> c <> "" ->
        API_BEARER_TOKEN w = Some t -> t <> "" -> c <> t ->
        endpoint s authorization request w
        = (Raise (HTTPException 401 "Invalid authentication token"), w))
  /\ (forall c, authorization = Some c -> c <> "" ->
        falsy_token (API_BEARER_TOKEN w) = true ->
        endpoint s authorization request w
        = (Raise (HTTPException 500
                    "API_BEARER_TOKEN environment variable not set"), w)).
Proof.
  split; [| split].
  - intros [-> | ->]; reflexivity.
  - intros c t -> Hc0 Ht Hne Hc. unfold endpoint, bind, HTTPBearer, ret.
    destruct c as [|a rest]; [congruence |].
    rewrite (verify_token_mismatch _ _ _ Ht Hne Hc). reflexivity.
  - intros c -> Hc0 Hf. unfold endpoint, bind, HTTPBearer, ret.
    destruct c as [|a rest]; [congruence |].
    rewrite (verify_token_not_configured _ _ Hf). reflexivity.
Qed.

Lemma rejected_before_store_access_witness :
  endpoint 403 None request_1 world_quiet
  = (Raise (HTTPException 403 "Not authenticated"), world_quiet)
  /\ endpoint 403 (Some "") request_1 world_empty_secret
     = (Raise (HTTPException 403 "Not authenticated"), world_empty_secret)
  /\ endpoint 403 (Some "guess") request_1 world_quiet
     = (Raise (HTTPException 401 "Invalid authentication token"), world_quiet)
  /\ endpoint 403 (Some "guess") request_1 world_empty_secret
     = (Raise (HTTPException 500
                 "API_BEARER_TOKEN environment variable not set"),
        world_empty_secret)
  /\ endpoint 403 (Some "guess") request_1 world_no_token
     = (Raise (HTTPException 500
                 "API_BEARER_TOKEN environment variable not set"),
        world_no_token).
Proof.
  split; [| split; [| split; [| split]]].
  - apply (rejected_before_store_access 403 None request_1 world_quiet).
    left. reflexivity.
  - apply (rejected_before_store_access 403 (Some "") request_1
             world_empty_secret).
    right. reflexivity.
  - apply (proj1 (proj2 (rejected_before_store_access
                           403 (Some "guess") request_1 world_quiet))
             "guess" "secret"); try reflexivity; discriminate.
  - apply (proj2 (proj2 (rejected_before_store_access
                           403 (Some "guess") request_1 world_empty_secret))
             "guess"); try reflexivity; discriminate.
  - apply (proj2 (proj2 (rejected_before_store_access
                           403 (Some "guess") request_1 world_no_token))
             "guess"); try reflexivity; discriminate.
Defined.

(** ** Successful requests *)

Lemma handler_success_inv request w w' :
  sample_supabase_agent request w = (Ret (mkAgentResponse true), w') ->
  exists c,
    Extends w [human_row request; ai_row request c]
      [(StoreSelect (session_id request) 10, true);
       (StoreInsert (human_row request), true);
       (post_call request w, true);
       (StoreInsert (ai_row request c), true)] w'.
Proof.
  intros H. destruct (handler_cases request w) as (rows & cs & HE & HR).
  rewrite H in HE, HR. simpl in HE, HR.
  inversion HR as [rows' cs' HB | |]; subst.
  inversion HB; subst. exists c. assumption.
Qed.

(** C6.  When authentication passes and the four steps succeed, the handler
    answers [success = true] and the table has gained exactly two rows for
    the session: the [human] message whose content is the query, then the
    [ai] message whose content is the model output and whose metadata holds
    the [request_id].  The insert of the [ai] row is the last call made;
    and whenever the handler answers [success = true], that row has been
    stored by the last call. *)
Theorem successful_request_stores_two_messages
  s t request w messages body c :
  API_BEARER_TOKEN w = Some t -> t <> "" ->
  store_outcome w (tick w) = None ->
  project_history (history_of request w) = Ret messages ->
  store_outcome w (1 + tick w) = None ->
  api_outcome w (2 + tick w) = ApiJson body ->
  extract_model_response body = Ret c ->
  store_outcome w (3 + tick w) = None ->
  (exists w',
     endpoint s (Some t) request w = (Ret (mkAgentResponse true), w')
     /\ table w'
        = (table w
           ++ [mkRow (session_id request)
                 (JObj [("type", JStr "human");
                        ("content", JStr (query request))]);
               mkRow (session_id request)
                 (JObj [("type", JStr "ai"); ("content", c);
                        ("data",
                         JObj [("request_id", JStr (request_id request))])])])%list
     /\ calls w'
        = (calls w
           ++ [(StoreSelect (session_id request) 10, true);
               (StoreInsert (human_row request), true);
               (post_call request w, true);
               (StoreInsert (ai_row request c), true)])%list)
  /\ (forall w0 w1,
        sample_supabase_agent request w0 = (Ret (mkAgentResponse true), w1) ->
        exists c0,
          table w1 = (table w0 ++ [human_row request; ai_row request c0])%list
          /\ hd_error (log w1) = Some (StoreInsert (ai_row request c0), true)).
Proof.
  intros Ht Hne H0 HP H1 H2 HX H3. split.
  - destruct (agent_body_success _ _ _ _ _ H0 HP H1 H2 HX H3) as (w' & HB & HE).
    exists w'. rewrite (endpoint_authenticated _ _ _ _ Ht Hne).
    unfold sample_supabase_agent, try_except. rewrite HB.
    split; [reflexivity | split].
    + destruct HE as (HT & _). exact HT.
    + apply (Extends_calls _ _ _ _ HE).
  - intros w0 w1 H. destruct (handler_success_inv _ _ _ H) as (c0 & HT & HL & _).
    exists c0. split; [exact HT | rewrite HL; reflexivity].
Qed.

Lemma successful_request_stores_two_messages_witness :
  exists w',
    endpoint 401 (Some "secret") request_1 world_quiet
    = (Ret (mkAgentResponse true), w')
    /\ table w'
       = [mkRow "s1" (JObj [("type", JStr "human");
                            ("content", JStr "print(1)")]);
          mkRow "s1" (JObj [("type", JStr "ai"); ("content", JStr "Python");
                            ("data", JObj [("request_id", JStr "r1")])])].
Proof.
  destruct (successful_request_stores_two_messages
              401 "secret" request_1 world_quiet [] body_python (JStr "Python"))
    as ((w' & HR & HT & _) & _);
    try reflexivity; try discriminate.
  exists w'. split; [exact HR | exact HT].
Defined.

(** ** Failure of the completion call *)

(** C7, as stated, fails.  When the completion call fails and the store
    then refuses the insert of the apology, the caller gets status 500 and
    no [ai] message is stored. *)
Lemma completion_failure_with_apology_refused :
  fst (verify_token "secret" world_api_down_apology_refused) = Ret true
  /\ api_outcome world_api_down_apology_refused 2
     = ApiRaises "502 Server Error: Bad Gateway"
  /\ fst (endpoint 401 (Some "secret") request_1
            world_api_down_apology_refused)
     = Raise (HTTPException 500 "Failed to store message: timeout")
  /\ fst (endpoint 401 (Some "secret") request_1
            world_api_down_apology_refused)
     <> Ret (mkAgentResponse false)
  /\ table (snd (endpoint 401 (Some "secret") request_1
                   world_api_down_apology_refused))
     = [human_row request_1]
  /\ count_type "ai"
       (table (snd (endpoint 401 (Some "secret") request_1
                      world_api_down_apology_refused))) = 0.
Proof.
  repeat split; try reflexivity. vm_compute. intros H. discriminate H.
Qed.

(** C7, amended.  When the completion call fails, with a network fault or
    a non-success status, and the apology write succeeds, the handler
    answers [success = false], and the [ai] message it has stored after the
    [human] one has the fixed apology as content, the failure detail in
    [data.error] and the [request_id] of the request in [data.request_id].
    When the apology write fails, the 500 error of [store_message] reaches
    the caller and the [human] message is the only row written. *)
Theorem completion_failure_stores_apology s t request w messages m :
  API_BEARER_TOKEN w = Some t -> t <> "" ->
  store_outcome w (tick w) = None ->
  project_history (history_of request w) = Ret messages ->
  store_outcome w (1 + tick w) = None ->
  api_outcome w (2 + tick w) = ApiRaises m ->
  (store_outcome w (3 + tick w) = None ->
   exists w',
     endpoint s (Some t) request w = (Ret (mkAgentResponse false), w')
     /\ table w'
        = (table w
           ++ [human_row request;
               mkRow (session_id request)
                 (JObj [("type", JStr "ai");
                        ("content",
                         JStr "I apologize, but I encountered an error processing your request.");
                        ("data",
                         JObj [("error", JStr ("500: " ++ m));
                               ("request_id",
                                JStr (request_id request))])])])%list)
  /\ (forall m',
        store_outcome w (3 + tick w) = Some m' ->
        fst (endpoint s (Some t) request w)
        = Raise (HTTPException 500 ("Failed to store message: " ++ m'))
        /\ http_status (fst (endpoint s (Some t) request w)) = 500%Z
        /\ table (snd (endpoint s (Some t) request w))
           = (table w ++ [human_row request])%list).
Proof.
  intros Ht Hne H0 HP H1 H2.
  destruct (agent_body_completion_fails _ _ _ _ H0 HP H1 H2) as (w1 & HB & HE).
  assert (HO : store_outcome w1 (tick w1) = store_outcome w (3 + tick w)).
  { rewrite (Extends_tick _ _ _ _ HE).
    destruct HE as (_ & _ & -> & _). reflexivity. }
  rewrite (endpoint_authenticated _ _ _ _ Ht Hne). split.
  - intros H3. rewrite <- HO in H3.
    destruct (handler_apologises _ _ _ _ HB H3) as (w2 & HR & HE2).
    exists w2. split; [exact HR |].
    destruct (Extends_trans _ _ _ _ _ _ _ HE HE2) as (HT & _).
    rewrite HT. reflexivity.
  - intros m' H3. rewrite <- HO in H3.
    rewrite (handler_apology_lost _ _ _ _ _ HB H3). simpl.
    repeat split. destruct HE as (HT & _). exact HT.
Qed.

Lemma completion_failure_stores_apology_witness :
  exists w',
    endpoint 401 (Some "secret") request_1 world_api_down
    = (Ret (mkAgentResponse false), w')
    /\ table w'
       = [human_row request_1;
          mkRow "s1"
            (JObj [("type", JStr "ai");
                   ("content",
                    JStr "I apologize, but I encountered an error processing your request.");
                   ("data",
                    JObj [("error",
                           JStr "500: 502 Server Error: Bad Gateway");
                          ("request_id", JStr "r1")])])].
Proof.
  destruct (completion_failure_stores_apology
              401 "secret" request_1 world_api_down []
              "502 Server Error: Bad Gateway")
    as (HA & _);
    try reflexivity; try discriminate.
  destruct (HA eq_refl) as (w' & HR & HT).
  exists w'. split; [exact HR | exact HT].
Defined.

(** ** The Message Writer *)

(** C9.  [store_message] does not deduplicate: two calls with the same
    session, role tag, content and metadata add two rows; and two requests
    that carry the same [request_id] and both succeed add two pairs of rows. *)
Theorem store_message_does_not_deduplicate :
  (forall sid t c d w,
     store_outcome w (tick w) = None ->
     store_outcome w (1 + tick w) = None ->
     exists w2,
       (store_message sid t c d ;;; store_message sid t c d) w = (Ret tt, w2)
       /\ table w2
          = (table w ++ [mkRow sid (message_obj t c d);
                         mkRow sid (message_obj t c d)])%list)
  /\ (forall request1 request2 w w1 w2,
        request_id request1 = request_id request2 ->
        sample_supabase_agent request1 w = (Ret (mkAgentResponse true), w1) ->
        sample_supabase_agent request2 w1 = (Ret (mkAgentResponse true), w2) ->
        exists c1 c2,
          table w2
          = (table w
             ++ [human_row request1; ai_row request1 c1;
                 human_row request2;
                 mkRow (session_id request2)
                   (message_obj "ai" c2
                      (Some [("request_id",
                              JStr (request_id request1))]))])%list).
Proof.
  split.
  - intros sid t c d w H0 H1. unfold bind.
    rewrite (store_message_ok _ _ _ _ _ H0).
    set (w1 := record_call _ true _).
    rewrite (store_message_ok _ _ _ _ w1 H1).
    eexists. split; [reflexivity |].
    simpl. rewrite <- app_assoc. reflexivity.
  - intros request1 request2 w w1 w2 Hid HA HB.
    destruct (handler_success_inv _ _ _ HA) as (c1 & HT1 & _).
    destruct (handler_success_inv _ _ _ HB) as (c2 & HT2 & _).
    exists c1, c2. rewrite HT2, HT1, <- app_assoc, Hid. reflexivity.
Qed.

Lemma store_message_does_not_deduplicate_witness :
  (exists w2,
     (store_message "s1" "human" (JStr "hi") None
      ;;; store_message "s1" "human" (JStr "hi") None) world_quiet
     = (Ret tt, w2)
     /\ table w2 = [mkRow "s1" (turn "human" "hi");
                    mkRow "s1" (turn "human" "hi")])
  /\ (exists c1 c2,
        table (snd (sample_supabase_agent request_1
                      (snd (sample_supabase_agent request_1 world_quiet))))
        = [human_row request_1; ai_row request_1 c1;
           human_row request_1; ai_row request_1 c2]).
Proof.
  split.
  - apply (proj1 store_message_does_not_deduplicate
             "s1" "human" (JStr "hi") None world_quiet); reflexivity.
  - apply (proj2 store_message_does_not_deduplicate
             request_1 request_1 world_quiet
             (snd (sample_supabase_agent request_1 world_quiet))
             (snd (sample_supabase_agent request_1
                     (snd (sample_supabase_agent request_1 world_quiet)))));
      reflexivity.
Defined.

(** ** Failures after authentication *)

(** C1, as stated, fails: with a store that refuses every call, the history
    fetch of an authenticated request fails, the apology write of the
    [except] block fails too, and the caller gets status 500. *)
Lemma apology_write_failure_answers_500 :
  fst (verify_token "secret" world_store_down) = Ret true
  /\ fst (agent_body request_1 world_store_down)
     = Raise (HTTPException 500
                "Failed to fetch conversation history: connection refused")
  /\ fst (endpoint 401 (Some "secret") request_1 world_store_down)
     = Raise (HTTPException 500 "Failed to store message: connection refused")
  /\ http_status (fst (endpoint 401 (Some "secret") request_1 world_store_down))
     = 500%Z
  /\ fst (endpoint 401 (Some "secret") request_1 world_store_down)
     <> Ret (mkAgentResponse false).
Proof.
  repeat split; try reflexivity. vm_compute. intros H. discriminate H.
Qed.

(** C1, amended.  For an authenticated request, a failure in the history
    fetch, the user-turn write, the model call or the assistant-turn write,
    that is any exception [e] that leaves the body of the [try], is answered
    with the response [success = false] and status 200, with the apology
    row stored, provided the apology write succeeds.  When the apology write
    fails, the 500 error of [store_message] reaches the caller. *)
Theorem post_authentication_failure_in_band s t request w e w1 :
  API_BEARER_TOKEN w = Some t -> t <> "" ->
  agent_body request w = (Raise e, w1) ->
  (store_outcome w1 (tick w1) = None ->
   exists w2,
     endpoint s (Some t) request w = (Ret (mkAgentResponse false), w2)
     /\ http_status (fst (endpoint s (Some t) request w)) = 200%Z
     /\ table w2 = (table w1 ++ [apology_row request e])%list)
  /\ (forall m, store_outcome w1 (tick w1) = Some m ->
        fst (endpoint s (Some t) request w)
        = Raise (HTTPException 500 ("Failed to store message: " ++ m))
        /\ http_status (fst (endpoint s (Some t) request w)) = 500%Z
        /\ table (snd (endpoint s (Some t) request w)) = table w1).
Proof.
  intros Ht Hne HB. rewrite (endpoint_authenticated _ _ _ _ Ht Hne). split.
  - intros HS. destruct (handler_apologises _ _ _ _ HB HS) as (w2 & HR & HE).
    exists w2. rewrite HR. split; [reflexivity | split; [reflexivity |]].
    destruct HE as (HT & _). exact HT.
  - intros m HS. rewrite (handler_apology_lost _ _ _ _ _ HB HS).
    repeat split.
Qed.

Lemma post_authentication_failure_in_band_witness :
  exists w2,
    endpoint 401 (Some "secret") request_1 world_select_fails
    = (Ret (mkAgentResponse false), w2)
    /\ http_status
         (fst (endpoint 401 (Some "secret") request_1 world_select_fails))
       = 200%Z
    /\ table w2
       = [apology_row request_1
            (HTTPException 500 "Failed to fetch conversation history: timeout")].
Proof.
  apply (proj1 (post_authentication_failure_in_band
                  401 "secret" request_1 world_select_fails
                  (HTTPException 500
                     "Failed to fetch conversation history: timeout")
                  (record_call (StoreSelect "s1" 10) false world_select_fails)
                  eq_refl ltac:(discriminate) eq_refl));
    reflexivity.
Defined.

(** Each of the four steps, when it fails, makes the body raise. *)
Lemma step_failures_leave_the_body request w rows cs e :
  BodyRun request w (Raise e) rows cs ->
  (exists ok, cs = [(StoreSelect (session_id request) 10, ok)])
  \/ cs = [(StoreSelect (session_id request) 10, true);
           (StoreInsert (human_row request), false)]
  \/ (exists ok, cs = [(StoreSelect (session_id request) 10, true);
                       (StoreInsert (human_row request), true);
                       (post_call request w, ok)])
  \/ (exists c, cs = [(StoreSelect (session_id request) 10, true);
                      (StoreInsert (human_row request), true);
                      (post_call request w, true);
                      (StoreInsert (ai_row request c), false)]).
Proof.
  intros H. inversion H; subst; eauto 6.
Qed.

(** ** The turns a request writes *)

(** C2, as stated, fails.  When the history fetch fails, no [human] message
    is written and the completion call is not attempted, although an [ai]
    message, the apology, is written; and when the store refuses every call,
    no [ai] message is written either. *)
Lemma fetch_failure_writes_no_human_message :
  let w1 := snd (endpoint 401 (Some "secret") request_1 world_select_fails) in
  let w2 := snd (endpoint 401 (Some "secret") request_1 world_store_down) in
  fst (verify_token "secret" world_select_fails) = Ret true
  /\ count_type "human" (table w1) = 0
  /\ count_type "ai" (table w1) = 1
  /\ completion_attempted (calls w1) = false
  /\ fst (verify_token "secret" world_store_down) = Ret true
  /\ count_type "human" (table w2) = 0
  /\ count_type "ai" (table w2) = 0.
Proof. repeat split. Qed.

Lemma has_type_human_row request : has_type "human" (human_row request) = true.
Proof. reflexivity. Qed.

Lemma has_type_ai_row request c :
  has_type "ai" (ai_row request c) = true
  /\ has_type "human" (ai_row request c) = false.
Proof. split; reflexivity. Qed.

Lemma has_type_apology_row request e :
  has_type "ai" (apology_row request e) = true
  /\ has_type "human" (apology_row request e) = false.
Proof. split; reflexivity. Qed.

Lemma reaches_completion_iff request w :
  reaches_completion request w = true
  <-> store_outcome w (tick w) = None
      /\ is_Ret (project_history (history_of request w)) = true
      /\ store_outcome w (1 + tick w) = None.
Proof.
  unfold reaches_completion.
  destruct (store_outcome w (tick w)) as [m0|].
  - split; [discriminate | intros (H & _); discriminate H].
  - destruct (is_Ret (project_history (history_of request w))); simpl.
    + destruct (store_outcome w (S (tick w))) as [m1|].
      * split; [discriminate | intros (_ & _ & H); discriminate H].
      * split; [intros _; repeat split | reflexivity].
    + split; [discriminate | intros (_ & H & _); discriminate H].
Qed.

(** The body reaches the completion call exactly when the select, the
    projection and the insert of the user's turn succeed. *)
Lemma agent_body_cases_steps request w :
  exists rows cs,
    Extends w rows cs (snd (agent_body request w))
    /\ BodyRun request w (fst (agent_body request w)) rows cs
    /\ completion_attempted cs = reaches_completion request w.
Proof.
  unfold agent_body, bind, reaches_completion.
  destruct (store_outcome w (tick w)) as [m0|] eqn:E0.
  { rewrite (fetch_fail _ _ _ _ E0). simpl.
    do 2 eexists; split; [| split; [apply BodyFetchFailed | reflexivity]].
    extends. }
  rewrite (fetch_ok _ _ _ E0). unfold lift. fold (history_of request w).
  set (w1 := record_call (StoreSelect (session_id request) 10) true w).
  destruct (project_history (history_of request w)) as [messages|e] eqn:EP.
  2: { simpl.
       do 2 eexists; split; [| split; [apply BodyProjectionFailed | reflexivity]].
       extends. }
  destruct (store_outcome w (1 + tick w)) as [m1|] eqn:E1.
  { rewrite (store_message_fail _ _ _ _ w1 _ E1). simpl.
    do 2 eexists; split; [| split; [apply BodyUserWriteFailed | reflexivity]].
    extends. }
  rewrite (store_message_ok _ _ _ _ w1 E1).
  fold (human_row request).
  set (w2 := record_call (StoreInsert (human_row request)) true
               (add_row (human_row request) w1)).
  destruct (api_outcome w2 (tick w2)) as [m2|body] eqn:E2.
  { rewrite (call_model_raises _ _ _ E2). simpl.
    do 2 eexists; split; [| split; [apply BodyRequestFailed | reflexivity]].
    extends. }
  rewrite (call_model_json _ _ _ E2).
  destruct (extract_model_response body) as [c|e] eqn:EX.
  2: { simpl.
       do 2 eexists; split; [| split; [apply BodyExtractionFailed | reflexivity]].
       extends. }
  set (w3 := record_call (post_call request w2) true w2).
  destruct (store_outcome w3 (tick w3)) as [m3|] eqn:E3.
  { rewrite (store_message_fail _ _ _ _ _ _ E3). simpl.
    do 2 eexists;
      split; [| split; [apply (BodyAssistantWriteFailed _ _ c) | reflexivity]].
    extends. }
  rewrite (store_message_ok _ _ _ _ _ E3). simpl.
  do 2 eexists; split; [| split; [apply (BodyDone _ _ c) | reflexivity]].
  extends.
Qed.

Lemma completion_attempted_insert cs r ok :
  completion_attempted (cs ++ [(StoreInsert r, ok)]) = completion_attempted cs.
Proof.
  unfold completion_attempted. rewrite existsb_app. simpl.
  rewrite !orb_false_r. reflexivity.
Qed.

Lemma handler_cases_steps request w :
  exists rows cs,
    Extends w rows cs (snd (sample_supabase_agent request w))
    /\ HandlerRun request w (fst (sample_supabase_agent request w)) rows cs
    /\ completion_attempted cs = reaches_completion request w.
Proof.
  unfold sample_supabase_agent, try_except.
  destruct (agent_body_cases_steps request w) as (rows & cs & HE & HR & HC).
  destruct (agent_body request w) as [[a|e] w1]; simpl in HE, HR.
  - pose proof (BodyRun_Ret _ _ _ _ _ HR) as ->. simpl.
    exists rows, cs.
    split; [assumption | split; [apply HandlerDone |]; assumption].
  - unfold agent_except, bind.
    destruct (store_outcome w1 (tick w1)) as [m|] eqn:E.
    + rewrite (store_message_fail _ _ _ _ _ _ E). simpl.
      exists rows, (cs ++ [(StoreInsert (apology_row request e), false)])%list.
      split; [| split; [apply HandlerApologyLost; assumption |]].
      * rewrite <- (app_nil_r rows).
        eapply Extends_trans; [eassumption | apply Extends_call].
      * rewrite completion_attempted_insert. exact HC.
    + rewrite (store_message_ok _ _ _ _ _ E). simpl.
      exists (rows ++ [apology_row request e])%list,
        (cs ++ [(StoreInsert (apology_row request e), true)])%list.
      split; [| split; [apply HandlerApologised; assumption |]].
      * eapply Extends_trans; [eassumption | apply Extends_insert].
      * rewrite completion_attempted_insert. exact HC.
Qed.

(** C2, amended.  An authenticated request writes at most one [human] and
    at most one [ai] message.  When the completion call is attempted, the
    calls made begin with the select, the insert of the [human] message,
    whose content is the query, and the completion call, and exactly one
    [human] message is written.  When the handler returns a response,
    with [success] true or false, exactly one [ai] message is written, and
    it is the last row written.  The completion call is attempted exactly
    when the history fetch, the projection and the user-turn write succeed;
    when it is not attempted, no [human] message is written.  When the
    handler returns no response, the last call is the refused insert of the
    apology and no [ai] message is written. *)
Theorem request_turns s t request w :
  API_BEARER_TOKEN w = Some t -> t <> "" ->
  exists rows cs,
    table (snd (endpoint s (Some t) request w)) = (table w ++ rows)%list
    /\ calls (snd (endpoint s (Some t) request w)) = (calls w ++ cs)%list
    /\ count_type "human" rows <= 1
    /\ count_type "ai" rows <= 1
    /\ (completion_attempted cs = true ->
        count_type "human" rows = 1
        /\ hd_error rows
           = Some (mkRow (session_id request)
                     (JObj [("type", JStr "human");
                            ("content", JStr (query request))]))
        /\ exists ok rest,
             cs = (StoreSelect (session_id request) 10, true)
                  :: (StoreInsert (human_row request), true)
                  :: (post_call request w, ok) :: rest)
    /\ (is_Ret (fst (endpoint s (Some t) request w)) = true ->
        count_type "ai" rows = 1
        /\ exists before r,
             rows = (before ++ [r])%list /\ has_type "ai" r = true)
    /\ (completion_attempted cs = true
        <-> store_outcome w (tick w) = None
            /\ is_Ret (project_history (history_of request w)) = true
            /\ store_outcome w (1 + tick w) = None)
    /\ (completion_attempted cs = false -> count_type "human" rows = 0)
    /\ (is_Ret (fst (endpoint s (Some t) request w)) = false ->
        count_type "ai" rows = 0
        /\ exists e,
             hd_error (log (snd (endpoint s (Some t) request w)))
             = Some (StoreInsert (apology_row request e), false)).
Proof.
  intros Ht Hne. rewrite (endpoint_authenticated _ _ _ _ Ht Hne).
  destruct (handler_cases_steps request w) as (rows & cs & HE & HR & HC).
  exists rows, cs.
  assert (HI : completion_attempted cs = true
               <-> store_outcome w (tick w) = None
                   /\ is_Ret (project_history (history_of request w)) = true
                   /\ store_outcome w (1 + tick w) = None).
  { rewrite HC. apply reaches_completion_iff. }
  clear HC.
  split; [destruct HE as (HT & _); exact HT |].
  split; [apply (Extends_calls _ _ _ _ HE) |].
  destruct HE as (_ & HL & _).
  destruct (fst (sample_supabase_agent request w)) as [a|e0];
    inversion HR as [rows' cs' HB | e rows' cs' HB | e m rows' cs' HB];
    subst; inversion HB; subst;
    (split; [cbv; lia |]); (split; [cbv; lia |]);
    (split; [ first [ intros HC; discriminate HC
                    | intros _; split; [reflexivity |];
                      split; [reflexivity |]; do 2 eexists; reflexivity ]
            | ]);
    (split; [| split; [exact HI |];
               split; [ first [ intros HC; discriminate HC
                              | intros _; reflexivity ] |];
               first [ intros HC; discriminate HC
                     | intros _; split; [reflexivity |];
                       eexists; rewrite HL; reflexivity ] ]);
    first [ intros HC; discriminate HC
          | intros _; split; [reflexivity |] ].
  - exists [human_row request], (ai_row request c). split; reflexivity.
  - exists [], (apology_row request
                  (HTTPException 500
                     ("Failed to fetch conversation history: " ++ m))).
    split; reflexivity.
  - exists [], (apology_row request e). split; reflexivity.
  - exists [], (apology_row request
                  (HTTPException 500 ("Failed to store message: " ++ m))).
    split; reflexivity.
  - exists [human_row request],
      (apology_row request (HTTPException 500 m)). split; reflexivity.
  - exists [human_row request], (apology_row request e). split; reflexivity.
  - exists [human_row request],
      (apology_row request
         (HTTPException 500 ("Failed to store message: " ++ m))).
    split; reflexivity.
Qed.

Lemma request_turns_witness :
  exists rows cs,
    table (snd (endpoint 401 (Some "secret") request_1 world_api_down)) = rows
    /\ calls (snd (endpoint 401 (Some "secret") request_1 world_api_down)) = cs
    /\ count_type "human" rows <= 1
    /\ count_type "ai" rows <= 1.
Proof.
  destruct (request_turns 401 "secret" request_1 world_api_down)
    as (rows & cs & HT & HC & Hh & Ha & _);
    try reflexivity; try discriminate.
  exists rows, cs. repeat split; assumption.
Defined.

(** * Further properties of the code *)

(** ** [verify_token] *)

(** [verify_token] accepts exactly when a non-empty token is configured and
    the credential equals it; in every case it leaves the world as it is. *)
Theorem verify_token_accepts_iff c w :
  snd (verify_token c w) = w
  /\ (fst (verify_token c w) = Ret true
      <-> exists t, API_BEARER_TOKEN w = Some t /\ t <> "" /\ c = t).
Proof.
  unfold verify_token.
  destruct (API_BEARER_TOKEN w) as [[|a t]|] eqn:E; simpl.
  - split; [reflexivity |]. split; [discriminate |].
    intros (t & Ht & Hne & _). injection Ht as <-. congruence.
  - destruct (String.eqb_spec c (String a t)) as [->|Hc]; simpl.
    + split; [reflexivity |]. split; [| reflexivity].
      intros _. exists (String a t). repeat split. discriminate.
    + split; [reflexivity |]. split; [discriminate |].
      intros (t' & Ht & _ & ->). injection Ht as <-. congruence.
  - split; [reflexivity |]. split; [discriminate |].
    intros (t & Ht & _). discriminate.
Qed.

(** ** The projection loop *)

Lemma project_loop_Ret acc l ms :
  project_loop acc l = Ret ms ->
  exists ps, ms = (acc ++ ps)%list
             /\ Forall2 (fun msg p => project_message msg = Ret p) l ps.
Proof.
  revert acc. induction l as [|msg rest IH]; intros acc H; simpl in H.
  - injection H as <-. exists []. rewrite app_nil_r. split; constructor.
  - destruct (project_message msg) as [p|e] eqn:E; [| discriminate].
    destruct (IH _ H) as (ps & -> & HF).
    exists (p :: ps). rewrite <- app_assoc. split; [reflexivity |].
    constructor; assumption.
Qed.

Lemma project_loop_Forall2 acc l ps :
  Forall2 (fun msg p => project_message msg = Ret p) l ps ->
  project_loop acc l = Ret (acc ++ ps)%list.
Proof.
  intros HF. revert acc.
  induction HF as [|msg p rest ps' E _ IH]; intros acc; simpl.
  - rewrite app_nil_r. reflexivity.
  - rewrite E, IH, <- app_assoc. reflexivity.
Qed.

Lemma project_loop_Raise acc l e :
  project_loop acc l = Raise e ->
  exists l1 msg l2 ps,
    l = (l1 ++ msg :: l2)%list
    /\ Forall2 (fun x p => project_message x = Ret p) l1 ps
    /\ project_message msg = Raise e.
Proof.
  revert acc. induction l as [|x rest IH]; intros acc H; simpl in H.
  - discriminate.
  - destruct (project_message x) as [p|e'] eqn:E.
    + destruct (IH _ H) as (l1 & msg & l2 & ps & -> & HF & HE).
      exists (x :: l1), msg, l2, (p :: ps).
      split; [reflexivity |]. split; [constructor; assumption | assumption].
    + injection H as <-. exists [], x, rest, [].
      split; [reflexivity |]. split; [constructor | assumption].
Qed.

(** The loop succeeds exactly when every record projects, and then yields
    the projections one for one, in the order of the records. *)
Theorem project_history_succeeds_iff l ms :
  project_history l = Ret ms
  <-> Forall2 (fun msg p => project_message msg = Ret p) l ms.
Proof.
  unfold project_history. split.
  - intros H. destruct (project_loop_Ret _ _ _ H) as (ps & -> & HF). exact HF.
  - intros HF. apply (project_loop_Forall2 [] _ _ HF).
Qed.

(** The loop fails exactly with the exception of the first record that does
    not project, the records before it having projected. *)
Theorem project_history_fails_iff l e :
  project_history l = Raise e
  <-> exists l1 msg l2 ps,
        l = (l1 ++ msg :: l2)%list
        /\ Forall2 (fun x p => project_message x = Ret p) l1 ps
        /\ project_message msg = Raise e.
Proof.
  unfold project_history. split.
  - apply project_loop_Raise.
  - intros (l1 & msg & l2 & ps & -> & HF & HE).
    generalize (@nil json). induction HF as [|x p r ps' E _ IH]; intros acc; simpl.
    + rewrite HE. reflexivity.
    + rewrite E. apply IH.
Qed.

Lemma project_message_shape msg p :
  project_message msg = Ret p ->
  exists fields ty co,
    py_getitem msg "message" = Ret (JObj fields)
    /\ lookup "type" fields = Some ty
    /\ lookup "content" fields = Some co
    /\ p = JObj [("role", ty); ("content", co)].
Proof.
  unfold project_message, res_bind.
  destruct (py_getitem msg "message") as [msg_data|] eqn:E1; [| discriminate].
  destruct msg_data as [| | | | | |fields]; simpl; try discriminate.
  destruct (lookup "type" fields) as [ty|] eqn:E2; [| discriminate].
  destruct (lookup "content" fields) as [co|] eqn:E3; [| discriminate].
  intros H. injection H as <-. exists fields, ty, co.
  split; [reflexivity |]. split; [exact E2 |]. split; [exact E3 | reflexivity].
Qed.

(** What the loop yields has one entry per record, and each entry is a dict
    with the two keys [role] and [content] and nothing else: the metadata
    and the other columns of a record are dropped. *)
Theorem project_history_shape l ms :
  project_history l = Ret ms ->
  length ms = length l
  /\ Forall (fun p => exists ty co, p = JObj [("role", ty); ("content", co)]) ms.
Proof.
  intros H. unfold project_history in H.
  destruct (project_loop_Ret _ _ _ H) as (ps & -> & HF). simpl.
  split.
  - symmetry. apply (Forall2_length HF).
  - clear H. induction HF as [|msg p rest ps' E _ IH]; [constructor |].
    constructor; [| exact IH].
    destruct (project_message_shape _ _ E) as (_ & ty & co & _ & _ & _ & ->).
    exists ty, co. reflexivity.
Qed.

Lemma project_history_shape_witness :
  let l := [row_dict (mkRow "s1" (message_obj "ai" (JStr "b")
                                    (Some [("request_id", JStr "r0")])))] in
  project_history l = Ret [role_content "ai" "b"]
  /\ length [role_content "ai" "b"] = length l.
Proof.
  split; [reflexivity |].
  apply (project_history_shape _ [role_content "ai" "b"]). reflexivity.
Defined.

(** ** The store's query *)

Lemma select_rows_snoc_same t r sid n :
  row_session_id r = sid ->
  select_rows (t ++ [r]) sid (S n) = r :: select_rows t sid n.
Proof.
  intros H. unfold select_rows. rewrite filter_app. simpl.
  rewrite H, String.eqb_refl, rev_app_distr. reflexivity.
Qed.

Lemma select_rows_snoc_other t r sid n :
  row_session_id r <> sid ->
  select_rows (t ++ [r]) sid n = select_rows t sid n.
Proof.
  intros H. unfold select_rows. rewrite filter_app. simpl.
  apply String.eqb_neq in H. rewrite H, app_nil_r. reflexivity.
Qed.

Lemma In_firstn {A} (n : nat) (l : list A) (x : A) :
  In x (firstn n l) -> In x l.
Proof.
  intros H. rewrite <- (firstn_skipn n l). apply in_or_app. left. exact H.
Qed.

Lemma select_rows_In t sid n r :
  In r (select_rows t sid n) -> In r t /\ row_session_id r = sid.
Proof.
  unfold select_rows. intros H. apply In_firstn in H.
  apply in_rev in H. apply filter_In in H. destruct H as (Hin & He).
  split; [exact Hin | apply String.eqb_eq; exact He].
Qed.

(** ** [fetch_conversation_history] and [store_message] as operations *)

(** A fetch never writes: the table is as before, exactly one call, the
    select, is added to the log, and the only exception it raises is the
    [HTTPException] with status 500 that wraps the store's fault. *)
Theorem fetch_conversation_history_reads_only sid limit w :
  table (snd (fetch_conversation_history sid limit w)) = table w
  /\ calls (snd (fetch_conversation_history sid limit w))
     = (calls w
        ++ [(StoreSelect sid limit,
             is_Ret (fst (fetch_conversation_history sid limit w)))])%list
  /\ (is_Ret (fst (fetch_conversation_history sid limit w)) = true
      \/ exists m,
           store_outcome w (tick w) = Some m
           /\ fst (fetch_conversation_history sid limit w)
              = Raise (HTTPException 500
                         ("Failed to fetch conversation history: " ++ m))).
Proof.
  destruct (store_outcome w (tick w)) as [m|] eqn:E.
  - rewrite (fetch_fail _ _ _ _ E). simpl. repeat split.
    right. exists m. split; reflexivity.
  - rewrite (fetch_ok _ _ _ E). simpl. repeat split. left. reflexivity.
Qed.

(** A write either adds exactly the one row built from its arguments at the
    end of the table, or raises the [HTTPException] with status 500 that
    wraps the store's fault and leaves the table as it was; the rows that
    were there are never changed. *)
Theorem store_message_appends_or_raises sid t c d w :
  (fst (store_message sid t c d w) = Ret tt
   /\ table (snd (store_message sid t c d w))
      = (table w ++ [mkRow sid (message_obj t c d)])%list)
  \/ (exists m,
        store_outcome w (tick w) = Some m
        /\ fst (store_message sid t c d w)
           = Raise (HTTPException 500 ("Failed to store message: " ++ m))
        /\ table (snd (store_message sid t c d w)) = table w).
Proof.
  destruct (store_outcome w (tick w)) as [m|] eqn:E.
  - right. exists m. rewrite (store_message_fail _ _ _ _ _ _ E).
    repeat split.
  - left. rewrite (store_message_ok _ _ _ _ _ E). split; reflexivity.
Qed.

(** Write, then read: after a successful write to a session, a successful
    fetch of that session with a limit of at least one returns the written
    record last, after the session's [limit - 1] most recent older records,
    and the projection of the written record is its role tag and content,
    without the metadata. *)
Theorem store_then_fetch sid t c d limit w :
  store_outcome w (tick w) = None ->
  store_outcome w (1 + tick w) = None ->
  1 <= limit ->
  fst ((store_message sid t c d ;;; fetch_conversation_history sid limit) w)
  = Ret (map row_dict (last_n (limit - 1) (session_rows (table w) sid))
         ++ [row_dict (mkRow sid (message_obj t c d))])%list
  /\ project_message (row_dict (mkRow sid (message_obj t c d)))
     = Ret (JObj [("role", JStr t); ("content", c)]).
Proof.
  intros H0 H1 Hl. split; [| reflexivity].
  unfold bind. rewrite (store_message_ok _ _ _ _ _ H0).
  set (r := mkRow sid (message_obj t c d)).
  set (w1 := record_call (StoreInsert r) true (add_row r w)).
  rewrite (fetch_ok sid limit w1 H1). simpl.
  destruct limit as [|n]; [lia |].
  rewrite (select_rows_snoc_same _ r sid n eq_refl). simpl.
  rewrite <- map_rev. unfold select_rows. rewrite rev_firstn_rev.
  rewrite Nat.sub_0_r. reflexivity.
Qed.

Lemma store_then_fetch_witness :
  fst ((store_message "s1" "human" (JStr "four") (Some [("k", JNull)])
        ;;; fetch_conversation_history "s1" 2) world_two_sessions)
  = Ret [row_dict (mkRow "s1" (turn "human" "three"));
         row_dict (mkRow "s1" (message_obj "human" (JStr "four")
                                 (Some [("k", JNull)])))].
Proof.
  apply (store_then_fetch "s1" "human" (JStr "four") (Some [("k", JNull)])
           2 world_two_sessions); try reflexivity. lia.
Defined.

(** Sessions are kept apart: every record a fetch returns carries the
    session id asked for, and a write to another session does not change
    what a fetch of this session returns. *)
Theorem sessions_are_isolated sid sid' t c d limit w :
  store_outcome w (tick w) = None ->
  store_outcome w (1 + tick w) = None ->
  sid' <> sid ->
  (exists data,
     fst (fetch_conversation_history sid limit w) = Ret data
     /\ Forall (fun rec => py_getitem rec "session_id" = Ret (JStr sid)) data
     /\ fst ((store_message sid' t c d ;;; fetch_conversation_history sid limit) w)
        = Ret data).
Proof.
  intros H0 H1 Hne. eexists. rewrite (fetch_ok _ _ _ H0). simpl.
  split; [reflexivity | split].
  - apply Forall_rev. apply Forall_forall. intros rec Hin.
    apply in_map_iff in Hin. destruct Hin as (r & <- & Hr).
    apply select_rows_In in Hr. destruct Hr as (_ & <-). reflexivity.
  - unfold bind. rewrite (store_message_ok _ _ _ _ _ H0).
    set (r := mkRow sid' (message_obj t c d)).
    set (w1 := record_call (StoreInsert r) true (add_row r w)).
    rewrite (fetch_ok sid limit w1 H1). simpl.
    rewrite (select_rows_snoc_other _ r sid limit Hne). reflexivity.
Qed.

Lemma sessions_are_isolated_witness :
  exists data,
    fst (fetch_conversation_history "s1" 10 world_two_sessions) = Ret data
    /\ Forall (fun rec => py_getitem rec "session_id" = Ret (JStr "s1")) data
    /\ fst ((store_message "s2" "human" (JStr "y") None
             ;;; fetch_conversation_history "s1" 10) world_two_sessions)
       = Ret data.
Proof.
  apply (sessions_are_isolated "s1" "s2" "human" (JStr "y") None 10
           world_two_sessions); try reflexivity. discriminate.
Defined.

(** ** What the handler does to the store and to the caller *)

Ltac handler_runs HR :=
  let HB := fresh "HB" in
  inversion HR as [? ? HB | ? ? ? HB | ? ? ? ? HB]; subst;
  inversion HB; subst.

(** The handler only appends, at most two rows, and every row it writes
    belongs to the session of the request. *)
Theorem handler_writes_to_its_session request w :
  exists rows,
    table (snd (sample_supabase_agent request w)) = (table w ++ rows)%list
    /\ length rows <= 2
    /\ Forall (fun r => row_session_id r = session_id request) rows.
Proof.
  destruct (handler_cases request w) as (rows & cs & HE & HR).
  exists rows. split; [destruct HE as (HT & _); exact HT |].
  destruct (fst (sample_supabase_agent request w));
    handler_runs HR; simpl; (split; [lia |]);
    repeat constructor.
Qed.

(** The handler returns [success = true], or [success = false], or lets out
    the [HTTPException] with status 500 of a failed apology write, which is
    then the last call made; so the status of an authenticated request is
    200 or 500. *)
Theorem handler_outcomes request w :
  (fst (sample_supabase_agent request w) = Ret (mkAgentResponse true)
   \/ fst (sample_supabase_agent request w) = Ret (mkAgentResponse false)
   \/ exists e m,
        fst (sample_supabase_agent request w)
        = Raise (HTTPException 500 ("Failed to store message: " ++ m))
        /\ hd_error (log (snd (sample_supabase_agent request w)))
           = Some (StoreInsert (apology_row request e), false))
  /\ (http_status (fst (sample_supabase_agent request w)) = 200%Z
      \/ http_status (fst (sample_supabase_agent request w)) = 500%Z).
Proof.
  destruct (handler_cases request w) as (rows & cs & HE & HR).
  destruct HE as (_ & HL & _).
  destruct (fst (sample_supabase_agent request w)) as [a|e0].
  - split; [| left; reflexivity].
    inversion HR; subst; [left | right; left]; reflexivity.
  - split; [| inversion HR; subst; right; reflexivity].
    right; right.
    inversion HR as [| | e m rows' cs' HB]; subst.
    exists e, m. split; [reflexivity |].
    rewrite HL, rev_app_distr. reflexivity.
Qed.

(** One request makes between two and five external calls: the first is
    the select and there is no other select, there is at most one completion
    call, so nothing is retried, and there are at most three inserts. *)
Theorem handler_call_budget request w :
  exists cs,
    calls (snd (sample_supabase_agent request w)) = (calls w ++ cs)%list
    /\ 2 <= length cs <= 5
    /\ (exists ok, hd_error cs = Some (StoreSelect (session_id request) 10, ok))
    /\ count_calls is_select cs = 1
    /\ count_calls is_post cs <= 1
    /\ count_calls is_insert cs <= 3.
Proof.
  destruct (handler_cases request w) as (rows & cs & HE & HR).
  exists cs. split; [apply (Extends_calls _ _ _ _ HE) |].
  destruct (fst (sample_supabase_agent request w));
    handler_runs HR; cbv [app length count_calls filter is_select is_post
                            is_insert fst post_call hd_error];
    (split; [lia |]); (split; [eexists; reflexivity |]);
    repeat split; lia.
Qed.

Lemma new_calls_Extends w rows cs w' :
  Extends w rows cs w' -> new_calls w w' = cs.
Proof.
  intros HE. unfold new_calls. rewrite (Extends_calls _ _ _ _ HE).
  rewrite skipn_app, skipn_all, Nat.sub_diag. reflexivity.
Qed.

Lemma new_post_call request w c :
  In c (new_calls w (snd (sample_supabase_agent request w))) ->
  is_post c = true ->
  fst c = post_call request w.
Proof.
  intros Hin Hp.
  destruct (handler_cases request w) as (rows & cs & HE & HR).
  rewrite (new_calls_Extends _ _ _ _ HE) in Hin. clear HE.
  destruct (fst (sample_supabase_agent request w));
    handler_runs HR; simpl in Hin;
    repeat (destruct Hin as [<- | Hin]; [try discriminate Hp; reflexivity |]);
    contradiction.
Qed.

(** The completion call, when it is made, is the same whatever the table
    and the log hold and whatever the other fields of the request are: its
    payload is built from the query alone, so the history that was fetched
    is not sent. *)
Theorem completion_call_depends_on_query_only request1 request2 w1 w2 c1 c2 :
  query request1 = query request2 ->
  TOGETHER_API_KEY w1 = TOGETHER_API_KEY w2 ->
  In c1 (new_calls w1 (snd (sample_supabase_agent request1 w1))) ->
  In c2 (new_calls w2 (snd (sample_supabase_agent request2 w2))) ->
  is_post c1 = true -> is_post c2 = true ->
  fst c1 = fst c2
  /\ fst c1 = HttpPost url (headers w1) (payload (query request1)).
Proof.
  intros Hq Hk H1 H2 P1 P2.
  rewrite (new_post_call _ _ _ H1 P1), (new_post_call _ _ _ H2 P2).
  unfold post_call, headers. rewrite Hq, Hk. split; reflexivity.
Qed.

Lemma completion_call_depends_on_query_only_witness :
  let w2 := snd (sample_supabase_agent request_1 world_quiet) in
  let c := (HttpPost url (headers world_quiet) (payload "print(1)"), true) in
  In c (calls w2)
  /\ In c (new_calls w2 (snd (sample_supabase_agent request_1 w2)))
  /\ fst c = HttpPost url (headers world_quiet) (payload "print(1)").
Proof.
  split; [vm_compute; tauto |]. split; [vm_compute; tauto |].
  apply (completion_call_depends_on_query_only
           request_1 request_1 world_quiet
           (snd (sample_supabase_agent request_1 world_quiet))
           (HttpPost url (headers world_quiet) (payload "print(1)"), true)
           (HttpPost url (headers world_quiet) (payload "print(1)"), true)
           eq_refl eq_refl
           ltac:(vm_compute; tauto) ltac:(vm_compute; tauto)
           eq_refl eq_refl).
Defined.

(** The handler does not read [user_id]: two requests that differ in it
    only have the same result and the same effects. *)
Remark user_id_is_ignored s authorization q u1 u2 rid sid w :
  endpoint s authorization (mkAgentRequest q u1 rid sid) w
  = endpoint s authorization (mkAgentRequest q u2 rid sid) w.
Proof. reflexivity. Qed.

(** ** The failure paths of the handler, one by one *)

Lemma agent_body_projection_fails request w e :
  store_outcome w (tick w) = None ->
  project_history (history_of request w) = Raise e ->
  exists w1,
    agent_body request w = (Raise e, w1)
    /\ Extends w [] [(StoreSelect (session_id request) 10, true)] w1.
Proof.
  intros H0 HP. unfold agent_body, bind.
  rewrite (fetch_ok _ _ _ H0). unfold lift, history_of in *. rewrite HP.
  eexists. split; [reflexivity | extends].
Qed.

Lemma agent_body_extraction_fails request w messages body e :
  store_outcome w (tick w) = None ->
  project_history (history_of request w) = Ret messages ->
  store_outcome w (1 + tick w) = None ->
  api_outcome w (2 + tick w) = ApiJson body ->
  extract_model_response body = Raise e ->
  exists w1,
    agent_body request w = (Raise e, w1)
    /\ Extends w [human_row request]
         [(StoreSelect (session_id request) 10, true);
          (StoreInsert (human_row request), true);
          (post_call request w, true)] w1.
Proof.
  intros H0 HP H1 H2 HX. unfold agent_body, bind.
  rewrite (fetch_ok _ _ _ H0). unfold lift, history_of in *. rewrite HP.
  set (w1 := record_call (StoreSelect (session_id request) 10) true w).
  rewrite (store_message_ok _ _ _ _ w1 H1).
  fold (human_row request).
  set (w2 := record_call (StoreInsert (human_row request)) true
               (add_row (human_row request) w1)).
  rewrite (call_model_json request w2 body H2), HX.
  eexists. split; [reflexivity | extends].
Qed.

Lemma handler_after_failure request w e w1 rows cs :
  agent_body request w = (Raise e, w1) ->
  Extends w rows cs w1 ->
  store_outcome w (length cs + tick w) = None ->
  exists w2,
    sample_supabase_agent request w = (Ret (mkAgentResponse false), w2)
    /\ table w2 = (table w ++ rows ++ [apology_row request e])%list
    /\ calls w2
       = (calls w ++ cs ++ [(StoreInsert (apology_row request e), true)])%list.
Proof.
  intros HB HE HS.
  assert (HS1 : store_outcome w1 (tick w1) = None).
  { rewrite (Extends_tick _ _ _ _ HE).
    destruct HE as (_ & _ & -> & _). exact HS. }
  destruct (handler_apologises _ _ _ _ HB HS1) as (w2 & HR & HE2).
  exists w2. split; [exact HR |].
  pose proof (Extends_trans _ _ _ _ _ _ _ HE HE2) as HE3.
  split; [destruct HE3 as (HT & _); exact HT |].
  apply (Extends_calls _ _ _ _ HE3).
Qed.

Lemma handler_after_failure_refused request w e w1 rows cs m :
  agent_body request w = (Raise e, w1) ->
  Extends w rows cs w1 ->
  store_outcome w (length cs + tick w) = Some m ->
  fst (sample_supabase_agent request w)
  = Raise (HTTPException 500 ("Failed to store message: " ++ m))
  /\ table (snd (sample_supabase_agent request w)) = (table w ++ rows)%list
  /\ calls (snd (sample_supabase_agent request w))
     = (calls w ++ cs ++ [(StoreInsert (apology_row request e), false)])%list.
Proof.
  intros HB HE HS.
  assert (HS1 : store_outcome w1 (tick w1) = Some m).
  { rewrite (Extends_tick _ _ _ _ HE).
    destruct HE as (_ & _ & -> & _). exact HS. }
  rewrite (handler_apology_lost _ _ _ _ _ HB HS1). simpl.
  split; [reflexivity |]. split; [destruct HE as (HT & _); exact HT |].
  unfold calls at 1. simpl. fold (calls w1).
  rewrite (Extends_calls _ _ _ _ HE), <- app_assoc. reflexivity.
Qed.

(** When the select fails and the store then takes the apology, the
    request writes the apology and nothing else; the fault of the store is
    kept in [data.error], wrapped twice. *)
Theorem fetch_failure_is_apologised request w m :
  store_outcome w (tick w) = Some m ->
  store_outcome w (1 + tick w) = None ->
  exists w',
    sample_supabase_agent request w = (Ret (mkAgentResponse false), w')
    /\ table w'
       = (table w
          ++ [mkRow (session_id request)
                (JObj [("type", JStr "ai"); ("content", JStr apology);
                       ("data",
                        JObj [("error",
                               JStr ("500: Failed to fetch conversation history: "
                                     ++ m));
                              ("request_id", JStr (request_id request))])])])%list
    /\ map snd (calls w') = (map snd (calls w) ++ [false; true])%list.
Proof.
  intros H0 H1.
  destruct (agent_body_fetch_fails request w m H0) as (w1 & HB & HE).
  destruct (handler_after_failure _ _ _ _ _ _ HB HE H1) as (w' & HR & HT & HC).
  exists w'. split; [exact HR |]. split; [rewrite HT; reflexivity |].
  rewrite HC, map_app. reflexivity.
Qed.

Lemma fetch_failure_is_apologised_witness :
  exists w',
    sample_supabase_agent request_1 world_select_fails
    = (Ret (mkAgentResponse false), w')
    /\ count_type "human" (table w') = 0.
Proof.
  destruct (fetch_failure_is_apologised request_1 world_select_fails "timeout")
    as (w' & HR & HT & _); try reflexivity.
  exists w'. split; [exact HR | rewrite HT; reflexivity].
Defined.

(** A record of the session that the loop cannot project stops the request
    before the user's turn is written and before the model is called: the
    calls are the select and the insert of the apology, whose [data.error]
    is the text of the exception of the loop.  When the store takes the
    apology, it is the only row written and the answer is
    [success = false]; when the store refuses it, nothing is written and
    the 500 error of [store_message] reaches the caller. *)
Theorem unreadable_history_stops_the_request request w e :
  store_outcome w (tick w) = None ->
  project_history (history_of request w) = Raise e ->
  (store_outcome w (1 + tick w) = None ->
   exists w',
     sample_supabase_agent request w = (Ret (mkAgentResponse false), w')
     /\ table w' = (table w ++ [apology_row request e])%list
     /\ calls w'
        = (calls w
           ++ [(StoreSelect (session_id request) 10, true);
               (StoreInsert (apology_row request e), true)])%list)
  /\ (forall m,
        store_outcome w (1 + tick w) = Some m ->
        fst (sample_supabase_agent request w)
        = Raise (HTTPException 500 ("Failed to store message: " ++ m))
        /\ table (snd (sample_supabase_agent request w)) = table w
        /\ calls (snd (sample_supabase_agent request w))
           = (calls w
              ++ [(StoreSelect (session_id request) 10, true);
                  (StoreInsert (apology_row request e), false)])%list).
Proof.
  intros H0 HP.
  destruct (agent_body_projection_fails request w e H0 HP) as (w1 & HB & HE).
  split.
  - intros H1.
    destruct (handler_after_failure _ _ _ _ _ _ HB HE H1) as (w' & HR & HT & HC).
    exists w'. repeat split; assumption.
  - intros m H1.
    destruct (handler_after_failure_refused _ _ _ _ _ _ _ HB HE H1)
      as (HR & HT & HC).
    split; [exact HR |]. split; [| exact HC].
    rewrite HT. apply app_nil_r.
Qed.

Lemma unreadable_history_stops_the_request_witness :
  exists w',
    sample_supabase_agent request_1 world_null_message
    = (Ret (mkAgentResponse false), w')
    /\ table w'
       = [mkRow "s1" JNull;
          apology_row request_1
            (TypeError "'NoneType' object is not subscriptable")].
Proof.
  destruct (unreadable_history_stops_the_request request_1 world_null_message
              (TypeError "'NoneType' object is not subscriptable"))
    as (HA & _); try reflexivity.
  destruct (HA eq_refl) as (w' & HR & HT & _).
  exists w'. split; [exact HR | exact HT].
Defined.

(** When the write of the user's turn fails and the store then takes the
    apology, no [human] row is written and the model is not called. *)
Theorem user_write_failure_is_apologised request w messages m :
  store_outcome w (tick w) = None ->
  project_history (history_of request w) = Ret messages ->
  store_outcome w (1 + tick w) = Some m ->
  store_outcome w (2 + tick w) = None ->
  exists w',
    sample_supabase_agent request w = (Ret (mkAgentResponse false), w')
    /\ table w'
       = (table w
          ++ [apology_row request
                (HTTPException 500 ("Failed to store message: " ++ m))])%list
    /\ calls w'
       = (calls w
          ++ [(StoreSelect (session_id request) 10, true);
              (StoreInsert (human_row request), false);
              (StoreInsert
                 (apology_row request
                    (HTTPException 500 ("Failed to store message: " ++ m))),
               true)])%list.
Proof.
  intros H0 HP H1 H2.
  destruct (agent_body_user_write_fails request w messages m H0 HP H1)
    as (w1 & HB & HE).
  destruct (handler_after_failure _ _ _ _ _ _ HB HE H2) as (w' & HR & HT & HC).
  exists w'. repeat split; assumption.
Qed.

Lemma user_write_failure_is_apologised_witness :
  exists w',
    sample_supabase_agent request_1 world_user_write_fails
    = (Ret (mkAgentResponse false), w')
    /\ table w'
       = [apology_row request_1
            (HTTPException 500 "Failed to store message: timeout")].
Proof.
  destruct (user_write_failure_is_apologised request_1 world_user_write_fails
              [] "timeout")
    as (w' & HR & HT & _); try reflexivity.
  exists w'. split; [exact HR | exact HT].
Defined.

(** A completion body from which the extraction raises is answered like a
    failure.  When the store takes the apology, the user's turn stays, the
    apology is written after it, the answer is [success = false], and
    [data.error] is the text of the exception itself, not wrapped in an
    [HTTPException] as the text of a [RequestException] is.  When the store
    refuses the apology, the user's turn is the only row written and the
    500 error of [store_message] reaches the caller. *)
Theorem malformed_completion_is_apologised request w messages body e :
  store_outcome w (tick w) = None ->
  project_history (history_of request w) = Ret messages ->
  store_outcome w (1 + tick w) = None ->
  api_outcome w (2 + tick w) = ApiJson body ->
  extract_model_response body = Raise e ->
  (store_outcome w (3 + tick w) = None ->
   exists w',
     sample_supabase_agent request w = (Ret (mkAgentResponse false), w')
     /\ table w'
        = (table w
           ++ [human_row request;
               mkRow (session_id request)
                 (JObj [("type", JStr "ai"); ("content", JStr apology);
                        ("data",
                         JObj [("error", JStr (str e));
                               ("request_id",
                                JStr (request_id request))])])])%list)
  /\ (forall m,
        store_outcome w (3 + tick w) = Some m ->
        fst (sample_supabase_agent request w)
        = Raise (HTTPException 500 ("Failed to store message: " ++ m))
        /\ table (snd (sample_supabase_agent request w))
           = (table w ++ [human_row request])%list).
Proof.
  intros H0 HP H1 H2 HX.
  destruct (agent_body_extraction_fails request w messages body e H0 HP H1 H2 HX)
    as (w1 & HB & HE).
  split.
  - intros H3.
    destruct (handler_after_failure _ _ _ _ _ _ HB HE H3) as (w' & HR & HT & _).
    exists w'. split; [exact HR | rewrite HT; reflexivity].
  - intros m H3.
    destruct (handler_after_failure_refused _ _ _ _ _ _ _ HB HE H3)
      as (HR & HT & _).
    split; [exact HR | exact HT].
Qed.

Lemma malformed_completion_is_apologised_witness :
  exists w',
    sample_supabase_agent request_1 world_no_choice
    = (Ret (mkAgentResponse false), w')
    /\ table w'
       = [human_row request_1;
          mkRow "s1"
            (JObj [("type", JStr "ai"); ("content", JStr apology);
                   ("data",
                    JObj [("error", JStr "list index out of range");
                          ("request_id", JStr "r1")])])].
Proof.
  destruct (malformed_completion_is_apologised request_1 world_no_choice []
              body_no_choice (IndexError "list index out of range"))
    as (HA & _); try reflexivity.
  destruct (HA eq_refl) as (w' & HR & HT).
  exists w'. split; [exact HR | exact HT].
Defined.

(** When the model has answered and the write of its answer fails, the
    answer is not stored anywhere: the rows written are the user's turn and
    the apology, and the response is [success = false]. *)
Theorem assistant_write_failure_loses_the_answer request w messages body c m :
  store_outcome w (tick w) = None ->
  project_history (history_of request w) = Ret messages ->
  store_outcome w (1 + tick w) = None ->
  api_outcome w (2 + tick w) = ApiJson body ->
  extract_model_response body = Ret c ->
  store_outcome w (3 + tick w) = Some m ->
  store_outcome w (4 + tick w) = None ->
  exists w',
    sample_supabase_agent request w = (Ret (mkAgentResponse false), w')
    /\ table w'
       = (table w
          ++ [human_row request;
              apology_row request
                (HTTPException 500 ("Failed to store message: " ++ m))])%list
    /\ map snd (calls w')
       = (map snd (calls w) ++ [true; true; true; false; true])%list.
Proof.
  intros H0 HP H1 H2 HX H3 H4.
  destruct (agent_body_assistant_write_fails request w messages body c m
              H0 HP H1 H2 HX H3) as (w1 & HB & HE).
  destruct (handler_after_failure _ _ _ _ _ _ HB HE H4) as (w' & HR & HT & HC).
  exists w'. split; [exact HR |]. split; [exact HT |].
  rewrite HC, map_app. reflexivity.
Qed.

Lemma assistant_write_failure_loses_the_answer_witness :
  exists w',
    sample_supabase_agent request_1 world_assistant_write_fails
    = (Ret (mkAgentResponse false), w')
    /\ table w'
       = [human_row request_1;
          apology_row request_1
            (HTTPException 500 "Failed to store message: timeout")].
Proof.
  destruct (assistant_write_failure_loses_the_answer request_1
              world_assistant_write_fails [] body_python (JStr "Python")
              "timeout")
    as (w' & HR & HT & _); try reflexivity.
  exists w'. split; [exact HR | exact HT].
Defined.

(** ** Rows the service can read back *)

Lemma well_formed_row_projects r :
  well_formed_row r = true ->
  exists p, project_message (row_dict r) = Ret p.
Proof.
  unfold well_formed_row, project_message. simpl.
  destruct (row_message r) as [| | | | | |fields]; try discriminate. simpl.
  destruct (lookup "type" fields) as [ty|]; [| discriminate].
  destruct (lookup "content" fields) as [co|]; [| discriminate].
  intros _. eexists. reflexivity.
Qed.

Lemma all_project l :
  Forall (fun x => exists p, project_message x = Ret p) l ->
  exists ps, Forall2 (fun msg p => project_message msg = Ret p) l ps.
Proof.
  induction 1 as [|x rest (p & Hp) _ (ps & IH)].
  - exists []. constructor.
  - exists (p :: ps). constructor; assumption.
Qed.

(** When every row of the table has a message with the keys [type] and
    [content], the projection loop of a request succeeds, whatever the
    session. *)
Theorem well_formed_table_projects request w :
  Forall (fun r => well_formed_row r = true) (table w) ->
  exists messages,
    project_history (history_of request w) = Ret messages
    /\ length messages <= 10.
Proof.
  intros HW.
  assert (HF : Forall (fun x => exists p, project_message x = Ret p)
                 (history_of request w)).
  { unfold history_of. apply Forall_rev. apply Forall_forall.
    intros x Hin. apply in_map_iff in Hin. destruct Hin as (r & <- & Hr).
    apply select_rows_In in Hr. destruct Hr as (Hr & _).
    apply well_formed_row_projects.
    rewrite Forall_forall in HW. apply HW. exact Hr. }
  destruct (all_project _ HF) as (ps & H2).
  exists ps. split.
  - apply (project_loop_Forall2 [] _ _ H2).
  - rewrite <- (Forall2_length H2). unfold history_of, select_rows.
    rewrite length_rev, length_map. apply firstn_le_length.
Qed.

Lemma well_formed_table_projects_witness :
  exists messages,
    project_history (history_of request_1 world_two_sessions) = Ret messages
    /\ length messages <= 10.
Proof.
  apply (well_formed_table_projects request_1 world_two_sessions).
  repeat constructor.
Defined.

(** The handler keeps the table readable: every row it writes, the user's
    turn, the assistant's turn and the apology, has the keys [type] and
    [content], whatever the model returned as content. *)
Theorem handler_keeps_table_well_formed request w :
  Forall (fun r => well_formed_row r = true) (table w) ->
  Forall (fun r => well_formed_row r = true)
    (table (snd (sample_supabase_agent request w))).
Proof.
  intros HW.
  destruct (handler_cases request w) as (rows & cs & (HT & _) & HR).
  rewrite HT. apply Forall_app. split; [exact HW |].
  destruct (fst (sample_supabase_agent request w));
    handler_runs HR; repeat constructor.
Qed.

Lemma handler_keeps_table_well_formed_witness :
  Forall (fun r => well_formed_row r = true)
    (table (snd (sample_supabase_agent request_1 world_two_sessions))).
Proof.
  apply (handler_keeps_table_well_formed request_1 world_two_sessions).
  repeat constructor.
Defined.

(** After a request that succeeded, the history a next request of the same
    session gets ends with the two turns of the first one, the user's and
    then the assistant's, after at most eight older records. *)
Theorem next_request_sees_the_turns request w w' :
  sample_supabase_agent request w = (Ret (mkAgentResponse true), w') ->
  exists c,
    history_of request w'
    = (map row_dict (last_n 8 (session_rows (table w) (session_id request)))
       ++ [row_dict (human_row request); row_dict (ai_row request c)])%list
    /\ project_history [row_dict (human_row request); row_dict (ai_row request c)]
       = Ret [JObj [("role", JStr "human"); ("content", JStr (query request))];
              JObj [("role", JStr "ai"); ("content", c)]].
Proof.
  intros H. destruct (handler_success_inv _ _ _ H) as (c & HT & _).
  exists c. split; [| reflexivity].
  unfold history_of. rewrite HT.
  change [human_row request; ai_row request c]
    with ([human_row request] ++ [ai_row request c])%list.
  rewrite app_assoc.
  rewrite (select_rows_snoc_same _ (ai_row request c) _ 9 eq_refl).
  rewrite (select_rows_snoc_same _ (human_row request) _ 8 eq_refl).
  simpl. rewrite <- app_assoc. simpl.
  rewrite <- map_rev. unfold select_rows. rewrite rev_firstn_rev.
  reflexivity.
Qed.

Lemma next_request_sees_the_turns_witness :
  exists c,
    history_of request_1 (snd (sample_supabase_agent request_1 world_quiet))
    = [row_dict (human_row request_1); row_dict (ai_row request_1 c)].
Proof.
  destruct (next_request_sees_the_turns request_1 world_quiet
              (snd (sample_supabase_agent request_1 world_quiet)) eq_refl)
    as (c & HH & _).
  exists c. exact HH.
Defined.

(** ** Edges *)

(** [if data:] drops an empty dict as it drops [None]: the two writes store
    the same row, without the key [data]; a dict that is not empty is stored
    under [data] as it is, after [type] and [content], which a key of the
    metadata cannot shadow. *)
Theorem store_message_metadata sid t c w :
  store_message sid t c (Some []) w = store_message sid t c None w
  /\ py_getitem (message_obj t c None) "data" = Raise (KeyError "'data'")
  /\ (forall d,
        d <> [] ->
        py_getitem (message_obj t c (Some d)) "data" = Ret (JObj d)
        /\ py_getitem (message_obj t c (Some d)) "type" = Ret (JStr t)
        /\ py_getitem (message_obj t c (Some d)) "content" = Ret c).
Proof.
  split; [reflexivity |]. split; [reflexivity |].
  intros [|x d] Hd; [congruence |]. repeat split.
Qed.

(** The extraction returns a value exactly for a body that is an object in
    which [choices] is absent or is a list that begins with an object, and
    in which the [message] of that first choice is absent or is an object;
    the value is the [content] of the message, or the empty string where
    [message] or [content] is absent.  Every other body makes it raise. *)
Theorem extract_model_response_succeeds_iff body c :
  extract_model_response body = Ret c
  <-> exists fields choice,
        body = JObj fields
        /\ (lookup "choices" fields = None /\ choice = []
            \/ exists rest,
                 lookup "choices" fields = Some (JArr (JObj choice :: rest)))
        /\ (lookup "message" choice = None /\ c = JStr ""
            \/ exists message,
                 lookup "message" choice = Some (JObj message)
                 /\ c = match lookup "content" message with
                        | Some x => x
                        | None => JStr ""
                        end).
Proof.
  split.
  - unfold extract_model_response.
    destruct body as [| | | | | |fields]; simpl; try discriminate.
    destruct (lookup "choices" fields) as [choices|] eqn:E1; simpl.
    + destruct choices as [| | | |s|items|]; simpl; try discriminate.
      { destruct s; simpl; discriminate. }
      destruct items as [|first rest]; simpl; [discriminate |].
      destruct first as [| | | | | |choice]; simpl; try discriminate.
      intros H. exists fields, choice. split; [reflexivity |].
      split; [right; exists rest; exact E1 |].
      destruct (lookup "message" choice) as [message|] eqn:E2; simpl in H.
      * destruct message as [| | | | | |mf]; simpl in H; try discriminate.
        right. exists mf. split; [reflexivity |].
        destruct (lookup "content" mf); injection H as <-; reflexivity.
      * left. injection H as <-. split; reflexivity.
    + intros H. injection H as <-. exists fields, []. split; [reflexivity |].
      split; [left; split; [exact E1 | reflexivity] |].
      left. split; reflexivity.
  - intros (fields & choice & -> & Hc & Hm). unfold extract_model_response.
    simpl.
    destruct Hc as [(-> & ->) | (rest & ->)]; simpl;
      destruct Hm as [(Hm & ->) | (message & Hm & ->)];
      try (simpl in Hm; discriminate Hm);
      try (rewrite Hm; simpl);
      try reflexivity;
      destruct (lookup "content" message); reflexivity.
Qed.

(** A limit of zero yields the empty history, and a limit that the session
    does not exceed yields all its records, oldest first. *)
Theorem fetch_limit_edges sid w :
  store_outcome w (tick w) = None ->
  fst (fetch_conversation_history sid 0 w) = Ret []
  /\ (forall limit,
        length (session_rows (table w) sid) <= limit ->
        fst (fetch_conversation_history sid limit w)
        = Ret (map row_dict (session_rows (table w) sid))).
Proof.
  intros H0. split.
  - rewrite (fetch_ok _ _ _ H0). reflexivity.
  - intros limit Hl. rewrite (fetch_ok _ _ _ H0). simpl.
    unfold select_rows. fold (session_rows (table w) sid).
    rewrite firstn_all2 by (rewrite length_rev; exact Hl).
    rewrite <- map_rev, rev_involutive. reflexivity.
Qed.

Lemma fetch_limit_edges_witness :
  fst (fetch_conversation_history "s1" 0 world_two_sessions) = Ret []
  /\ fst (fetch_conversation_history "s1" 3 world_two_sessions)
     = Ret [row_dict (mkRow "s1" (turn "human" "one"));
            row_dict (mkRow "s1" (turn "ai" "two"));
            row_dict (mkRow "s1" (turn "human" "three"))].
Proof.
  destruct (fetch_limit_edges "s1" world_two_sessions eq_refl) as (HA & HB).
  split; [exact HA |]. apply (HB 3). simpl. lia.
Defined.

Lemma verify_token_accepts_or_not c w :
  (verify_token c w = (Ret true, w)
   /\ exists t, API_BEARER_TOKEN w = Some t /\ t <> "" /\ c = t)
  \/ (exists st d,
        verify_token c w = (Raise (HTTPException st d), w)
        /\ (st = 401%Z \/ st = 500%Z)).
Proof.
  unfold verify_token.
  destruct (API_BEARER_TOKEN w) as [[|a t]|] eqn:E; simpl.
  - right. do 2 eexists. split; [reflexivity | right; reflexivity].
  - destruct (String.eqb_spec c (String a t)) as [->|Hc]; simpl.
    + left. split; [reflexivity |]. exists (String a t).
      repeat split. discriminate.
    + right. do 2 eexists. split; [reflexivity | left; reflexivity].
  - right. do 2 eexists. split; [reflexivity | right; reflexivity].
Qed.

(** ** The statuses of the route *)

(** Given a request whose body is an [AgentRequest], the route answers
    with 200, with 401, with 500, or with the status of the bearer scheme
    when the credential is missing or empty; and unless a credential is
    presented and accepted by [verify_token], the world is left as it was:
    no external call is made. *)
Theorem endpoint_statuses s authorization request w :
  let r := fst (endpoint s authorization request w) in
  let w' := snd (endpoint s authorization request w) in
  (http_status r = 200%Z \/ http_status r = 401%Z \/ http_status r = 500%Z
   \/ ((authorization = None \/ authorization = Some "")
       /\ http_status r = s))
  /\ ((exists c, authorization = Some c /\ c <> ""
                 /\ fst (verify_token c w) = Ret true)
      \/ w' = w).
Proof.
  unfold endpoint, bind. destruct authorization as [[|a rest]|]; simpl.
  - split; [| right; reflexivity].
    right; right; right. split; [right |]; reflexivity.
  - destruct (verify_token_accepts_or_not (String a rest) w)
      as [(E & _) | (st & d & E & Hst)];
      rewrite E; simpl.
    + split.
      * destruct (handler_cases request w) as (rows & cs & _ & HR).
        destruct (fst (sample_supabase_agent request w)) as [x|e].
        -- left. reflexivity.
        -- right; right; left. inversion HR; subst. reflexivity.
      * left. exists (String a rest).
        split; [reflexivity |]. split; [discriminate |].
        rewrite E. reflexivity.
    + split; [| right; reflexivity].
      destruct Hst as [-> | ->]; [right; left | right; right; left];
        reflexivity.
  - split; [| right; reflexivity].
    right; right; right. split; [left |]; reflexivity.
Qed.
